(** * ACR: trust aggregation and the x402 payment gate

    A shallow embedding of the query service of the Agent Curated Registry
    ([api/trust.ts], [api/schemas.ts], [api/routes.ts]) and of its payment
    middleware ([payments/x402.ts]), with the properties of the design
    document stated over it.

    Conventions of the embedding.
    - A JavaScript [number] is read in two ways. In [Trust], [X402] and
      [Api] it is an exact rational ([Q]); the properties stated over these
      modules are those in which the rounding of the arithmetic plays no
      part: which rows contribute, the order of the provenance, the
      grouping, the ledger and the control flow of the routes. In [Double]
      the functions of [api/trust.ts] are given again over IEEE 754 doubles
      (the primitive floats), every sum, product, quotient and comparison
      the machine operation in the order of the code; the properties of the
      score, of the decision hint and of the leaderboard are stated there.
    - A value of type [any] (the decoded payment payload) is a JSON value.
    - The database is a list of rows; its order stands for the order in
      which the engine yields rows that a query leaves unordered. In
      [Double] the [findMany] call of the leaderboard is a parameter, and
      what it promises is [SpecDouble.conforms]: the order of rows that
      are equal on the sort keys is left to it.
    - Effects of the middleware (ledger inserts, facilitator calls, a thrown
      [TypeError]) are threaded through a small state-and-exception monad. *)

From Stdlib Require Import QArith Qround ZArith List String Ascii Bool Lia Lqa.
From Stdlib Require Import Sorting.Sorted Sorting.Permutation.
From Stdlib Require Import DecimalString DecimalPos DecimalZ.
From Stdlib Require Floats.PrimFloat Floats.FloatOps Floats.SpecFloat.
From Stdlib Require Numbers.Cyclic.Int63.Uint63.
Import ListNotations.

Open Scope string_scope.
Open Scope Q_scope.

Set Warnings "-inexact-float".

(* ------------------------------------------------------------------ *)
(** ** JavaScript primitives *)

Module JS.

(** [Math.round]: nearest integer, a tie going towards plus infinity. *)
Definition Math_round (x : Q) : Z := Qfloor (x + (1 # 2)).

(** [a >= b] on numbers. *)
Definition geb (a b : Q) : bool := Qle_bool b a.

(** [a > b] on numbers. *)
Definition gtb (a b : Q) : bool := negb (Qle_bool a b).

(** A comparison with a property that may be [undefined]: [undefined]
    converts to [NaN] and every comparison with it is false. *)
Definition geb_undef (a : Q) (b : option Q) : bool :=
  match b with
  | Some b' => geb a b'
  | None => false
  end.

(** [hay.includes(needle)] on strings. *)
Fixpoint includes (needle hay : string) : bool :=
  String.prefix needle hay
  || match hay with
     | EmptyString => false
     | String _ rest => includes needle rest
     end.

(** Truthiness of a string, and of a header that may be absent. *)
Definition truthy_string (s : string) : bool :=
  match s with
  | EmptyString => false
  | String _ _ => true
  end.

Definition truthy_header (h : option string) : bool :=
  match h with
  | Some s => truthy_string s
  | None => false
  end.

(** Names visible on every object literal through [Object.prototype]. *)
Definition objectPrototypeKeys : list string :=
  [ "constructor"; "__defineGetter__"; "__defineSetter__";
    "hasOwnProperty"; "__lookupGetter__"; "__lookupSetter__";
    "isPrototypeOf"; "propertyIsEnumerable"; "toString"; "valueOf";
    "__proto__"; "toLocaleString" ].

Definition inheritedKey (k : string) : bool :=
  existsb (String.eqb k) objectPrototypeKeys.

(** JSON values, the run-time shape of [JSON.parse]'s result. *)
#[warnings="-register-all"]
Inductive json : Type :=
| JNull
| JBool (b : bool)
| JNum (n : Q)
| JStr (s : string)
| JArr (items : list json)
| JObj (props : list (string * json)).

Definition truthy (v : json) : bool :=
  match v with
  | JNull => false
  | JBool b => b
  | JNum n => negb (Qeq_bool n 0)
  | JStr s => truthy_string s
  | JArr _ | JObj _ => true
  end.

(** [v.key] for a data property [key] that no prototype defines: the own
    property of an object, [undefined] ([None]) on anything else. *)
Fixpoint assoc (key : string) (props : list (string * json)) : option json :=
  match props with
  | [] => None
  | (k, v) :: rest => if String.eqb k key then Some v else assoc key rest
  end.

Definition getProp (v : json) (key : string) : option json :=
  match v with
  | JObj props => assoc key props
  | _ => None
  end.

Definition isStr (s : string) (v : json) : bool :=
  match v with
  | JStr s' => String.eqb s' s
  | _ => false
  end.

(** [v.includes(s)]: defined on strings and arrays; on any other value the
    property is missing and the call throws a [TypeError] ([None]). *)
Definition includesMethod (v : json) (s : string) : option bool :=
  match v with
  | JStr hay => Some (includes s hay)
  | JArr items => Some (existsb (isStr s) items)
  | _ => None
  end.

End JS.

(* ------------------------------------------------------------------ *)
(** ** Trust aggregation ([api/trust.ts]) *)

Module Trust.

Inductive DecisionHint : Type := allow | allow_with_limit | review | deny.

Record Thresholds : Type := mkThresholds {
  t_allow : Q;
  t_limit : Q;
  t_review : Q
}.

(** The object literal [thresholds]: its own properties, in source order. *)
Definition thresholds : list (string * Thresholds) :=
  [ ("copy_trading",   mkThresholds (7 # 10) (4 # 10) (2 # 10));
    ("token_analysis", mkThresholds (6 # 10) (3 # 10) (1 # 10));
    ("kyc",            mkThresholds (8 # 10) (5 # 10) (3 # 10));
    ("rugger_check",   mkThresholds 0 0 (3 # 10));
    ("default",        mkThresholds (6 # 10) (3 # 10) (1 # 10)) ].

Fixpoint ownProperty (key : string) (tbl : list (string * Thresholds))
  : option Thresholds :=
  match tbl with
  | [] => None
  | (k, t) :: rest => if String.eqb k key then Some t else ownProperty key rest
  end.

(** What [thresholds[context]] evaluates to. *)
Inductive Lookup : Type :=
| Own (t : Thresholds)   (* an entry of the literal *)
| Inherited              (* a member of [Object.prototype]: truthy, and
                            without [allow], [limit] or [review] *)
| Undefined.

Definition thresholds_get (context : string) : Lookup :=
  match ownProperty context thresholds with
  | Some t => Own t
  | None => if JS.inheritedKey context then Inherited else Undefined
  end.

(** [thresholds[context] || thresholds.default] *)
Definition selectThresholds (context : string) : Lookup :=
  match thresholds_get context with
  | Undefined => thresholds_get "default"
  | found => found
  end.

Definition field (proj : Thresholds -> Q) (t : Lookup) : option Q :=
  match t with
  | Own th => Some (proj th)
  | _ => None
  end.

Definition getDecisionHint (score : Q) (context : string) : DecisionHint :=
  let t := selectThresholds context in
  if String.eqb context "rugger_check" then
    if JS.geb_undef score (field t_review t) then deny
    else if JS.gtb score 0 then review
    else allow
  else
    if JS.geb_undef score (field t_allow t) then allow
    else if JS.geb_undef score (field t_limit t) then allow_with_limit
    else if JS.geb_undef score (field t_review t) then review
    else deny.

(** *** The registry store, as the queries read it *)

(** A [Date] is kept as its ISO-8601 rendering. *)
Definition Date : Type := string.
Definition toISOString (d : Date) : string := d.

Record Entity : Type := mkEntity {
  entity_key : string;             (* primary key *)
  chain : string;
  entityType : string;
  address : string;
  displayName : option string
}.

Record Registry : Type := mkRegistry {
  slug : string;
  registry_context : string
}.

(** A registry entry together with the rows its relations point to
    ([include: { registry: true }], [include: { entity: true }]). *)
Record RegistryEntry : Type := mkEntry {
  id : string;
  entity : Entity;
  registry : Registry;
  score : Q;
  computedAt : Date
}.

Record Store : Type := mkStore {
  entities : list Entity;
  registryEntries : list RegistryEntry
}.

Record ProvenanceItem : Type := mkProv {
  prov_registry : string;
  record_id : string;
  computed_at : string
}.

Record TrustQueryResponse : Type := mkResponse {
  entity_id : string;
  context : string;
  resp_score : Q;
  decision_hint : DecisionHint;
  provenance : list ProvenanceItem;
  generated_at : string
}.

Record TrustQueryParams : Type := mkParams {
  p_entityType : string;
  p_identifier : string;
  p_context : string
}.

(** [prisma.entity.findFirst({ where: { entityType, address, chain } })] *)
Definition findFirstEntity (st : Store) (ty addr : string) : option Entity :=
  find (fun e => String.eqb (entityType e) ty
                 && String.eqb (address e) addr
                 && String.eqb (chain e) "solana")
       (entities st).

(** The included relation [registryEntries], narrowed by an optional
    [where: { registry: { context } }]; no [orderBy] is given. *)
Definition entriesOf (st : Store) (e : Entity) (ctx : option string)
  : list RegistryEntry :=
  filter (fun r => String.eqb (entity_key (entity r)) (entity_key e)
                   && match ctx with
                      | Some c => String.eqb (registry_context (registry r)) c
                      | None => true
                      end)
         (registryEntries st).

Definition provenanceOf (entry : RegistryEntry) : ProvenanceItem :=
  mkProv (slug (registry entry)) (id entry) (toISOString (computedAt entry)).

(** [Math.round(x * 10000) / 10000] on exact rationals; [Double.round4]
    is the operation on doubles. *)
Definition round4 (x : Q) : Q :=
  inject_Z (JS.Math_round (x * 10000)) / 10000.

(** State of the accumulation loop of [queryTrust]. *)
Record Acc : Type := mkAcc {
  totalScore : Q;
  totalWeight : Q;
  acc_provenance : list ProvenanceItem
}.

(** One iteration of [for (const entry of entity.registryEntries)]. *)
Definition accumulate (a : Acc) (entry : RegistryEntry) : Acc :=
  let weight := 1 in
  mkAcc (totalScore a + score entry * weight)
        (totalWeight a + weight)
        (acc_provenance a ++ [provenanceOf entry]).

Definition entityIdOf (ty addr : string) : string := ty ++ ":" ++ addr.

(** [queryTrust]; [now] is the reading of the clock, already rendered. The
    result type has the [null] of the TypeScript signature. *)
Definition queryTrust (st : Store) (now : string) (params : TrustQueryParams)
  : option TrustQueryResponse :=
  let entityType := p_entityType params in
  let identifier := p_identifier params in
  let context := p_context params in
  let found :=
    match findFirstEntity st entityType identifier with
    | Some e => Some (entriesOf st e (Some context))
    | None => None
    end in
  match found with
  | None | Some [] =>
      Some (mkResponse (entityIdOf entityType identifier) context
                       0 review [] now)
  | Some entries =>
      let a := fold_left accumulate entries (mkAcc 0 0 []) in
      let aggregatedScore :=
        if JS.gtb (totalWeight a) 0 then totalScore a / totalWeight a else 0 in
      Some (mkResponse (entityIdOf entityType identifier) context
                       (round4 aggregatedScore)
                       (getDecisionHint aggregatedScore context)
                       (acc_provenance a)
                       now)
  end.

(** *** [queryEntityTrust] *)

Record TrustEntityParams : Type := mkEntityParams {
  ep_address : string;
  ep_context : option string
}.

(** [prisma.entity.findMany({ where: { address, chain } })] *)
Definition findManyEntities (st : Store) (addr : string) : list Entity :=
  filter (fun e => String.eqb (address e) addr && String.eqb (chain e) "solana")
         (entities st).

(** The [Map] from context to entries, in insertion order. *)
Definition ContextMap : Type := list (string * list RegistryEntry).

(** [if (!byContext.has(ctx)) byContext.set(ctx, []); byContext.get(ctx).push(entry)] *)
Fixpoint pushInto (m : ContextMap) (ctx : string) (entry : RegistryEntry)
  : ContextMap :=
  match m with
  | [] => [(ctx, [entry])]
  | (k, es) :: rest =>
      if String.eqb k ctx then (k, (es ++ [entry])%list) :: rest
      else (k, es) :: pushInto rest ctx entry
  end.

Definition groupByContext (entries : list RegistryEntry) : ContextMap :=
  fold_left (fun m entry => pushInto m (registry_context (registry entry)) entry)
            entries [].

(** The inner accumulation of [queryEntityTrust]. *)
Definition accumulateGroup (a : Q * list ProvenanceItem) (entry : RegistryEntry)
  : Q * list ProvenanceItem :=
  (fst a + score entry, (snd a ++ [provenanceOf entry])%list).

Definition lengthQ {A : Type} (l : list A) : Q := inject_Z (Z.of_nat (List.length l)).

(** Body of [for (const [ctx, entries] of byContext)]. *)
Definition aggregateGroup (e : Entity) (now : string)
  (group : string * list RegistryEntry) : TrustQueryResponse :=
  let (ctx, entries) := group in
  let a := fold_left accumulateGroup entries (0, []) in
  let avgScore :=
    if JS.gtb (lengthQ entries) 0 then fst a / lengthQ entries else 0 in
  mkResponse (entityIdOf (entityType e) (address e)) ctx
             (round4 avgScore) (getDecisionHint avgScore ctx) (snd a) now.

(** [context ? { registry: { context } } : undefined]: an empty string is
    falsy and filters nothing. *)
Definition whereContext (context : option string) : option string :=
  if JS.truthy_header context then context else None.

Definition queryEntityTrust (st : Store) (now : string)
  (params : TrustEntityParams) : list TrustQueryResponse :=
  flat_map
    (fun e => map (aggregateGroup e now)
                  (groupByContext
                     (entriesOf st e (whereContext (ep_context params)))))
    (findManyEntities st (ep_address params)).

(** *** [queryTopEntities] *)

Record TrustTopParams : Type := mkTopParams {
  tp_context : string;
  tp_limit : Z;
  tp_registrySlugs : option (list string)
}.

Record TopEntity : Type := mkTop {
  top_entity_id : string;
  top_display_name : option string;
  top_context : string;
  top_score : Q;
  top_decision_hint : DecisionHint;
  top_registry : string;
  top_computed_at : string
}.

(** The [where] clause: the registry's context, and its slug when a
    non-empty list of slugs is given. *)
Definition topWhere (context : string) (registrySlugs : option (list string))
  (r : RegistryEntry) : bool :=
  String.eqb (registry_context (registry r)) context
  && match registrySlugs with
     | Some (s :: more) => existsb (String.eqb (slug (registry r))) (s :: more)
     | _ => true
     end.

(** [orderBy: { score: 'desc' }]: the only key is the score. Rows with
    equal scores are kept in the order of the list, which is one of the
    orders an engine may yield; [Double.queryTopEntities] leaves that
    order to the engine. *)
Fixpoint insertByScore (x : RegistryEntry) (l : list RegistryEntry)
  : list RegistryEntry :=
  match l with
  | [] => [x]
  | y :: rest =>
      if JS.gtb (score y) (score x) then y :: insertByScore x rest
      else x :: y :: rest
  end.

Definition orderByScoreDesc (l : list RegistryEntry) : list RegistryEntry :=
  fold_right insertByScore [] l.

(** [take: n]: the first [n] rows; a negative [n] reads from the end. *)
Definition take {A : Type} (n : Z) (l : list A) : list A :=
  if (n <? 0)%Z then skipn (List.length l - Z.to_nat (- n)) l
  else firstn (Z.to_nat n) l.

Definition findManyTop (st : Store) (params : TrustTopParams)
  : list RegistryEntry :=
  take (tp_limit params)
       (orderByScoreDesc
          (filter (topWhere (tp_context params) (tp_registrySlugs params))
                  (registryEntries st))).

Definition toTopEntity (context : string) (entry : RegistryEntry) : TopEntity :=
  mkTop (entityIdOf (entityType (entity entry)) (address (entity entry)))
        (displayName (entity entry))
        context
        (round4 (score entry))
        (getDecisionHint (score entry) context)
        (slug (registry entry))
        (toISOString (computedAt entry)).

Definition queryTopEntities (st : Store) (params : TrustTopParams)
  : list TopEntity :=
  map (toTopEntity (tp_context params)) (findManyTop st params).

End Trust.

(* ------------------------------------------------------------------ *)
(** ** The payment gate ([payments/x402.ts]) *)

Module X402.

Import JS.

Inductive Mode : Type := mock | live.

Record Config : Type := mkConfig {
  paymentsMode : Mode;
  priceTrustQueryUsd : Q;
  priceTrustEntityUsd : Q;
  priceTrustTopUsd : Q;
  payaiMerchantAddress : string;
  payaiNetwork : string
}.

Definition USDC_SOLANA : string := "EPjFWdd5AufqSSqeM2qN1xzybapC8G4wEGGkZwyTDt1v".
Definition USDC_SOLANA_DEVNET : string := "4zMMC9srt5Ri5X14GAgXhaHii3GnPAEERYPJgZJDncDU".

(** The parts of an Express request the middleware reads. *)
Record Request : Type := mkRequest {
  protocol : string;
  host : string;
  originalUrl : string;
  path : string;
  x_payment : option string;          (* req.headers["x-payment"] *)
  x_payment_proof : option string     (* req.headers["x-payment-proof"] *)
}.

Record PaymentContext : Type := mkContext {
  requestId : string;
  paid : bool;
  paymentRef : option string;
  payer : option string
}.

(** A row of the payment ledger, as [prisma.paymentLog.create] receives it. *)
Record PaymentLog : Type := mkLog {
  log_requestId : string;
  log_endpoint : string;
  log_priceUsd : Q;
  log_status : string;
  log_paymentRef : option string
}.

(** The requirement record sent to the facilitator. [network] comes from a
    value of type [any], hence a JSON value. *)
Record PaymentRequirements : Type := mkRequirements {
  pr_scheme : string;
  pr_network : json;
  pr_maxAmountRequired : string;
  pr_resource : string;
  pr_description : string;
  pr_mimeType : string;
  pr_payTo : string;
  pr_maxTimeoutSeconds : Z;
  pr_asset : string
}.

Record Extra : Type := mkExtra {
  extra_name : string;
  extra_priceUsd : Q;                 (* rendered by [toString] *)
  extra_feePayer : string
}.

Record Accept : Type := mkAccept {
  acc_scheme : string;
  acc_network : string;
  acc_maxAmountRequired : string;
  acc_asset : string;
  acc_payTo : string;
  acc_resource : string;
  acc_description : string;
  acc_mimeType : string;
  acc_maxTimeoutSeconds : Z;
  acc_extra : Extra
}.

Record X402PaymentRequirements : Type := mkChallenge {
  x402Version : Z;
  error : string;
  accepts : list Accept
}.

(** The JSON summary placed, base64-encoded, in [X-PAYMENT-RESPONSE]. *)
Record SettlementResponse : Type := mkSettlementResponse {
  sr_success : bool;
  sr_transaction : option string;
  sr_network : option json;
  sr_payer : option string
}.

(** How the middleware leaves the request: [next()] or a 402 response. *)
Inductive Outcome : Type :=
| Next (ctx : PaymentContext) (header : option SettlementResponse)
| PaymentRequired (body : X402PaymentRequirements).

(** *** The facilitator *)

(** Bodies of the facilitator's answers, typed as the source casts them. *)
Record VerifyBody : Type := mkVerifyBody {
  vb_isValid : option bool;
  vb_payer : option string;
  vb_invalidReason : option string
}.

Record SettleBody : Type := mkSettleBody {
  sb_success : option bool;
  sb_transaction : option string;
  sb_errorReason : option string
}.

(** The remote service: [None] is a [fetch] or [response.json()] that
    throws. *)
Record Facilitator : Type := mkFacilitator {
  postVerify : json -> PaymentRequirements -> option VerifyBody;
  postSettle : json -> PaymentRequirements -> option SettleBody
}.

Record Verification : Type := mkVerification {
  isValid : bool;
  v_payer : option string;
  invalidReason : option string
}.

Record Settlement : Type := mkSettlement {
  success : bool;
  transaction : option string;
  errorReason : option string
}.

Inductive FacilitatorCall : Type :=
| CallVerify (paymentPayload : json) (paymentRequirements : PaymentRequirements)
| CallSettle (paymentPayload : json) (paymentRequirements : PaymentRequirements).

(** *** Effects *)

(** What a run can change: the ledger table and the requests sent out. *)
Record World : Type := mkWorld {
  paymentLog : list PaymentLog;
  outbound : list FacilitatorCall
}.

Inductive Result (A : Type) : Type :=
| Ok (a : A)
| TypeError.                          (* an exception nothing catches *)
Arguments Ok {A} a.
Arguments TypeError {A}.

Definition M (A : Type) : Type := World -> Result A * World.

Definition ret {A : Type} (a : A) : M A := fun w => (Ok a, w).

Definition bind {A B : Type} (m : M A) (k : A -> M B) : M B :=
  fun w =>
    match m w with
    | (Ok a, w') => k a w'
    | (TypeError, w') => (TypeError, w')
    end.

Definition throw {A : Type} : M A := fun w => (TypeError, w).

Notation "x <- m ;; k" := (bind m (fun x => k))
  (at level 100, m at next level, right associativity).
Notation "m ;;; k" := (bind m (fun _ => k))
  (at level 100, right associativity).

(** [await prisma.paymentLog.create({ data })]: one row appended. *)
Definition paymentLog_create (data : PaymentLog) : M unit :=
  fun w => (Ok tt, mkWorld (paymentLog w ++ [data]) (outbound w)).

Definition send (c : FacilitatorCall) : M unit :=
  fun w => (Ok tt, mkWorld (paymentLog w) (outbound w ++ [c])).

(** *** The middleware *)

Section Middleware.

Variable config : Config.
Variable facilitator : Facilitator.

(** [JSON.parse(Buffer.from(header, "base64").toString("utf-8"))]; [None]
    when [JSON.parse] throws. *)
Variable decode : string -> option json.

Definition parsePaymentHeader (header : string) : json :=
  match decode header with
  | Some parsed => parsed
  | None => JNull
  end.

(** [result.isValid === true] and the like. *)
Definition isTrue (b : option bool) : bool :=
  match b with
  | Some true => true
  | _ => false
  end.

Definition verifyPayment (paymentPayload : json)
  (paymentRequirements : PaymentRequirements) : M Verification :=
  send (CallVerify paymentPayload paymentRequirements) ;;;
  match postVerify facilitator paymentPayload paymentRequirements with
  | Some result =>
      ret (mkVerification (isTrue (vb_isValid result)) (vb_payer result)
                          (vb_invalidReason result))
  | None => ret (mkVerification false None (Some "facilitator_error"))
  end.

Definition settlePayment (paymentPayload : json)
  (paymentRequirements : PaymentRequirements) : M Settlement :=
  send (CallSettle paymentPayload paymentRequirements) ;;;
  match postSettle facilitator paymentPayload paymentRequirements with
  | Some result =>
      ret (mkSettlement (isTrue (sb_success result)) (sb_transaction result)
                        (sb_errorReason result))
  | None => ret (mkSettlement false None (Some "facilitator_error"))
  end.

(** [a || b] on headers that may be absent. *)
Definition orHeader (a b : option string) : option string :=
  if truthy_header a then a else b.

Definition validateMockPayment (req : Request) : bool * option string :=
  let paymentProof := x_payment_proof req in
  let paymentHeader := x_payment req in
  if truthy_header (orHeader paymentProof paymentHeader)
  then (true, orHeader paymentProof paymentHeader)
  else (false, None).

(** [Math.round(usd * 1000000).toString()], for the prices of the
    configuration: amounts far below 10^21, which [toString] prints as
    decimal numerals. *)
Definition usdToAtomicUnits (usd : Q) : string :=
  NilZero.string_of_int (Z.to_int (Math_round (usd * 1000000))).

Definition orString (a b : string) : string :=
  if truthy_string a then a else b.

(** The tail of the middleware: a [pending] row, then the 402 response. *)
Definition paymentRequired (priceUsd : Q) (requestId resourceUrl : string)
  (req : Request) : M Outcome :=
  paymentLog_create (mkLog requestId (path req) priceUsd "pending" None) ;;;
  let network := orString (payaiNetwork config) "solana-devnet" in
  let isDevnet := includes "devnet" network in
  ret (PaymentRequired
         (mkChallenge 1 "X-PAYMENT header is required"
            [ mkAccept "exact" network (usdToAtomicUnits priceUsd)
                (if isDevnet then USDC_SOLANA_DEVNET else USDC_SOLANA)
                (orString (payaiMerchantAddress config)
                          "MERCHANT_ADDRESS_NOT_CONFIGURED")
                resourceUrl
                ("ACR Trust Query - " ++ path req)
                "application/json" 60
                (mkExtra "USDC" priceUsd
                         "2wKupLR9q6wXYppw8Gr2NvWxKBUqm4PPJKkQfoxHDBg4") ])).

(** [paymentPayload.network || "solana-devnet"] *)
Definition declaredNetwork (paymentPayload : json) : json :=
  match getProp paymentPayload "network" with
  | Some n => if truthy n then n else JStr "solana-devnet"
  | None => JStr "solana-devnet"
  end.

(** [network.includes("devnet")], which throws when [network] has no such
    method. *)
Definition networkIsDevnet (network : json) : M bool :=
  match includesMethod network "devnet" with
  | Some b => ret b
  | None => throw
  end.

(** The live branch once a truthy payload has been decoded. *)
Definition livePayment (priceUsd : Q) (requestId resourceUrl : string)
  (req : Request) (paymentPayload : json) : M Outcome :=
  let network := declaredNetwork paymentPayload in
  isDevnet <- networkIsDevnet network ;;
  let paymentRequirements :=
    mkRequirements "exact" network (usdToAtomicUnits priceUsd) resourceUrl
      ("ACR Trust Query - " ++ path req) "application/json"
      (orString (payaiMerchantAddress config) "") 60
      (if isDevnet then USDC_SOLANA_DEVNET else USDC_SOLANA) in
  verification <- verifyPayment paymentPayload paymentRequirements ;;
  if isValid verification then
    settlement <- settlePayment paymentPayload paymentRequirements ;;
    if success settlement then
      paymentLog_create (mkLog requestId (path req) priceUsd "completed"
                               (transaction settlement)) ;;;
      ret (Next (mkContext requestId true (transaction settlement)
                           (v_payer verification))
                (Some (mkSettlementResponse true (transaction settlement)
                         (getProp paymentPayload "network")
                         (v_payer verification))))
    else paymentRequired priceUsd requestId resourceUrl req
  else paymentRequired priceUsd requestId resourceUrl req.

(** [x402Middleware(priceUsd)] applied to one request; [requestId] is the
    identifier [uuidv4()] draws for it. *)
Definition x402Middleware (priceUsd : Q) (requestId : string) (req : Request)
  : M Outcome :=
  let resourceUrl := protocol req ++ "://" ++ host req ++ originalUrl req in
  match paymentsMode config with
  | mock =>
      let validation := validateMockPayment req in
      if fst validation then
        paymentLog_create (mkLog requestId (path req) priceUsd "completed"
                                 (snd validation)) ;;;
        ret (Next (mkContext requestId true (snd validation) None) None)
      else paymentRequired priceUsd requestId resourceUrl req
  | live =>
      match x_payment req with
      | Some paymentHeader =>
          if truthy_string paymentHeader then
            let paymentPayload := parsePaymentHeader paymentHeader in
            if truthy paymentPayload
            then livePayment priceUsd requestId resourceUrl req paymentPayload
            else paymentRequired priceUsd requestId resourceUrl req
          else paymentRequired priceUsd requestId resourceUrl req
      | None => paymentRequired priceUsd requestId resourceUrl req
      end
  end.

End Middleware.

End X402.

(* ------------------------------------------------------------------ *)
(** ** Request schemas and route handlers ([api/schemas.ts], [api/routes.ts])

    The handlers below are what runs after the payment middleware has
    called [next()]. *)

Module Api.

Import Trust.

(** The value [Number(x)] of a query parameter, integral values only;
    [NaN] covers a parameter that is not numeric. [Double.TopQuery] has
    every double as a limit. *)
Inductive Coerced : Type :=
| NaN
| Num (n : Z).

(** [req.query] of [GET /trust/top] for parameters that are strings or
    missing: a field is [None] when the parameter is missing. A parameter
    that is given and is not a string has a value in [Double.TopQuery]. *)
Record TopQuery : Type := mkTopQuery {
  q_context : option string;
  q_limit : option Coerced;
  q_registry_slugs : option string
}.

(** [z.coerce.number().min(1).max(100).default(50)] *)
Definition limitSchema (raw : option Coerced) : option Z :=
  match raw with
  | None => Some 50%Z
  | Some NaN => None
  | Some (Num n) => if ((1 <=? n) && (n <=? 100))%Z then Some n else None
  end.

(** [trustTopQuerySchema.safeParse]; [None] when [success] is false. *)
Definition trustTopQuerySchema (q : TopQuery)
  : option (string * Z * option string) :=
  match q_context q, limitSchema (q_limit q) with
  | Some context, Some limit => Some (context, limit, q_registry_slugs q)
  | _, _ => None
  end.

(** [s.split(',')] *)
Fixpoint split_comma (s : string) : list string :=
  match s with
  | EmptyString => [EmptyString]
  | String c rest =>
      if Ascii.eqb c ","%char then EmptyString :: split_comma rest
      else match split_comma rest with
           | [] => [String c EmptyString]
           | w :: ws => String c w :: ws
           end
  end.

Inductive TopResponse : Type :=
| Top200 (context : string) (limit : Z) (count : nat) (entities : list TopEntity)
| Top400.

(** Handler of [GET /trust/top]. *)
Definition trustTopHandler (st : Store) (q : TopQuery) : TopResponse :=
  match trustTopQuerySchema q with
  | None => Top400
  | Some (context, limit, registry_slugs) =>
      let slugs :=
        option_map (fun s => filter JS.truthy_string (split_comma s))
                   registry_slugs in
      let results := queryTopEntities st (mkTopParams context limit slugs) in
      Top200 context limit (List.length results) results
  end.

(** The body of [POST /trust/query], when it has the three string fields. *)
Record QueryBody : Type := mkBody {
  b_type : string;
  b_identifier : string;
  b_context : string
}.

Definition entityTypes : list string := ["wallet"; "token"; "dev"; "kol"].

(** [trustQuerySchema.safeParse]; a body of another shape is [None]. *)
Definition trustQuerySchema (body : option QueryBody) : option QueryBody :=
  match body with
  | Some b =>
      if existsb (String.eqb (b_type b)) entityTypes
         && JS.truthy_string (b_identifier b)
         && JS.truthy_string (b_context b)
      then Some b else None
  | None => None
  end.

Inductive QueryResponse : Type :=
| Query200 (result : TrustQueryResponse)
| Query400
| Query404.

(** Handler of [POST /trust/query]. *)
Definition trustQueryHandler (st : Store) (now : string)
  (body : option QueryBody) : QueryResponse :=
  match trustQuerySchema body with
  | None => Query400
  | Some b =>
      match queryTrust st now
              (mkParams (b_type b) (b_identifier b) (b_context b)) with
      | None => Query404
      | Some result => Query200 result
      end
  end.

End Api.

(* ------------------------------------------------------------------ *)
(** ** Vocabulary of the design document

    Notions the properties are phrased in. They are written from the
    document's wording and are compared with the code below. *)

Module Spec.

Import Trust.

Definition sumQ (l : list Q) : Q := fold_right Qplus 0 l.

(** Arithmetic mean, every element with the same weight. *)
Definition mean (l : list Q) : Q := sumQ l / lengthQ l.

(** Nearest integer, a tie going away from zero. *)
Definition roundHalfAwayFromZero (x : Q) : Z :=
  if Qle_bool 0 x then Qfloor (x + (1 # 2))
  else (- Qfloor (- x + (1 # 2)))%Z.

Definition roundHalfAwayFromZero4 (x : Q) : Q :=
  inject_Z (roundHalfAwayFromZero (x * 10000)) / 10000.

(** The threshold table of a context: the defaults unless the context has
    an entry of its own. *)
Definition thresholdsFor (context : string) : Thresholds :=
  match ownProperty context thresholds with
  | Some t => t
  | None => mkThresholds (6 # 10) (3 # 10) (1 # 10)
  end.

(** The decision-hint table. The inverted context says nothing about a
    negative score. *)
Definition decisionHintTable (score : Q) (context : string)
  : option DecisionHint :=
  let t := thresholdsFor context in
  if String.eqb context "rugger_check" then
    if Qle_bool (t_review t) score then Some deny
    else if negb (Qle_bool score 0) then Some review
    else if Qeq_bool score 0 then Some allow
    else None
  else
    if Qle_bool (t_allow t) score then Some allow
    else if Qle_bool (t_limit t) score then Some allow_with_limit
    else if Qle_bool (t_review t) score then Some review
    else Some deny.

(** Tiers of a standard context, from the least to the most permissive. *)
Definition tier (h : DecisionHint) : nat :=
  match h with
  | deny => 0
  | review => 1
  | allow_with_limit => 2
  | allow => 3
  end.

(** Provenance order: registry slug ascending. *)
Definition slugAsc (a b : ProvenanceItem) : Prop :=
  String.leb (prov_registry a) (prov_registry b) = true.

End Spec.

(* ------------------------------------------------------------------ *)
(** ** Sample data *)

Module Examples.

Import Trust.

Definition W1 : Entity := mkEntity "ent_1" "solana" "wallet" "W1" None.
Definition W2 : Entity := mkEntity "ent_2" "solana" "wallet" "W2" (Some "whale").

Definition top_dex_traders : Registry := mkRegistry "top_dex_traders" "copy_trading".
Definition top_whales : Registry := mkRegistry "top_whales" "copy_trading".
Definition top_kols : Registry := mkRegistry "top_kols" "social_verification".

(** Two entries of one wallet, stored with the later slug first. *)
Definition store_two : Store :=
  mkStore [W1]
    [ mkEntry "entry_1" W1 top_whales (5 # 100) "2026-02-06T12:00:00.000Z";
      mkEntry "entry_2" W1 top_dex_traders (10 # 100) "2026-02-06T12:05:00.000Z" ].

(** A single negative score whose ten-thousandfold is a tie: -312.5. *)
Definition store_negative : Store :=
  mkStore [W1]
    [ mkEntry "entry_1" W1 top_dex_traders (- (1 # 32)) "2026-02-06T12:00:00.000Z" ].

(** A single score just below the default [allow] threshold. *)
Definition store_boundary : Store :=
  mkStore [W1]
    [ mkEntry "entry_1" W1 top_kols (59996 # 100000) "2026-02-06T12:00:00.000Z" ].

(** Two wallets with the same score in one registry. *)
Definition store_tie : Store :=
  mkStore [W1; W2]
    [ mkEntry "entry_b" W1 top_whales (1 # 2) "2026-02-06T12:00:00.000Z";
      mkEntry "entry_a" W2 top_whales (1 # 2) "2026-02-06T12:00:00.000Z" ].

(** The rows of [store_two], yielded in the other order. *)
Definition store_two_swapped : Store :=
  mkStore [W1]
    [ mkEntry "entry_2" W1 top_dex_traders (10 # 100) "2026-02-06T12:05:00.000Z";
      mkEntry "entry_1" W1 top_whales (5 # 100) "2026-02-06T12:00:00.000Z" ].

Definition query_W1 : TrustQueryParams := mkParams "wallet" "W1" "copy_trading".
Definition query_W1_social : TrustQueryParams :=
  mkParams "wallet" "W1" "social_verification".
Definition query_W3 : TrustQueryParams := mkParams "wallet" "W3" "copy_trading".

Definition now : string := "2026-02-07T00:00:00.000Z".

Import X402.

Definition config_live_mainnet : Config :=
  mkConfig live (2 # 100) (1 # 100) (5 # 100)
           "4zDGMwXJtXz5NHEfrAzCvUDGUGg1v5YG4LXVSrAb9JgC" "solana".

(** A decoder that knows three headers: [{}], [{"network":5}] and
    [{"network":"solana-devnet"}]; anything else fails to parse. *)
Definition decode_sample (header : string) : option JS.json :=
  if String.eqb header "e30=" then Some (JS.JObj [])
  else if String.eqb header "eyJuZXR3b3JrIjo1fQ=="
  then Some (JS.JObj [("network", JS.JNum 5)])
  else if String.eqb header "eyJuZXR3b3JrIjoic29sYW5hLWRldm5ldCJ9"
  then Some (JS.JObj [("network", JS.JStr "solana-devnet")])
  else None.

(** A facilitator that finds every payment invalid. *)
Definition facilitator_rejecting : Facilitator :=
  mkFacilitator
    (fun _ _ => Some (mkVerifyBody (Some false) None (Some "invalid_transaction")))
    (fun _ _ => Some (mkSettleBody (Some false) None (Some "not_verified"))).

(** A facilitator that verifies and settles every payment. *)
Definition facilitator_accepting : Facilitator :=
  mkFacilitator
    (fun _ _ => Some (mkVerifyBody (Some true) (Some "payer_1") None))
    (fun _ _ => Some (mkSettleBody (Some true) (Some "tx_1") None)).

(** The header [eyJuZXR3b3JrIjo1fQ==] carries [{"network":5}]. *)
Definition decode_sample_payload_is_object : Prop :=
  decode_sample "eyJuZXR3b3JrIjo1fQ==" = Some (JS.JObj [("network", JS.JNum 5)]).

Definition request_with (header : option string) : Request :=
  mkRequest "https" "acr.example" "/v1/trust/query" "/trust/query" header None.

Definition empty_world : World := mkWorld [] [].

End Examples.

(* ------------------------------------------------------------------ *)
(** ** The entity route ([api/schemas.ts], [api/routes.ts]) *)

Module Routes.

Import Trust.

(** A query-string parameter read by a schema of optional strings: it may
    be missing, a string, or something else (a repeated parameter). *)
Inductive Param : Type :=
| Missing
| Text (s : string)
| NotText.

(** [trustEntityParamsSchema]: [address: z.string().min(1)] *)
Definition trustEntityParamsSchema (address : string) : option string :=
  if JS.truthy_string address then Some address else None.

(** [trustEntityQuerySchema]: [context: z.string().optional()] *)
Definition trustEntityQuerySchema (context : Param) : option (option string) :=
  match context with
  | Missing => Some None
  | Text s => Some (Some s)
  | NotText => None
  end.

Inductive EntityResponse : Type :=
| Entity200 (results : list TrustQueryResponse)
| Entity400
| Entity404.

(** Handler of [GET /trust/entity/:address]. *)
Definition trustEntityHandler (st : Store) (now : string) (address : string)
  (context : Param) : EntityResponse :=
  match trustEntityParamsSchema address, trustEntityQuerySchema context with
  | Some address, Some context =>
      let results := queryEntityTrust st now (mkEntityParams address context) in
      if Nat.eqb (List.length results) 0 then Entity404 else Entity200 results
  | _, _ => Entity400
  end.

End Routes.

(* ------------------------------------------------------------------ *)
(** ** Registry configuration ([ingestion/registries.ts]) *)

Module Ingestion.

Record RegistryConfig : Type := mkRegistryConfig {
  slug : string;
  name : string;
  description : string;
  context : string;
  sourceFile : string;
  entityType : string;
  identifierColumn : string;
  scoreColumn : string
}.

Definition registryConfigs : list RegistryConfig :=
  [ mkRegistryConfig "top_dex_traders" "Top Solana DEX Traders"
      "Top traders by DEX trading volume and profitability on Solana"
      "copy_trading" "Top_Solana_Dex_Trader_Wallets.csv" "wallet"
      "identifier" "scores";
    mkRegistryConfig "top_pumpfun_traders" "Top Pump.fun Traders"
      "Top traders on Pump.fun memecoin platform"
      "copy_trading" "Top_Pump_Fun_Wallet.csv" "wallet"
      "identifier" "scores";
    mkRegistryConfig "top_whales" "Solana Whales"
      "Large holders and significant wallet addresses on Solana"
      "copy_trading" "Top_Solana_Whales_Wallets.csv" "wallet"
      "identifier" "scores";
    mkRegistryConfig "bot_traders" "Solana Bot Traders"
      "Known bot trading wallets - useful for filtering or analyzing bot activity"
      "bot_detection" "Top_Solana_Bot_Traders_Wallets.csv" "wallet"
      "identifier" "scores";
    mkRegistryConfig "dev_ruggers" "Top Dev Ruggers"
      "Developer wallets associated with rug pulls and suspicious token launches"
      "rugger_check" "Top_Dev_Wallets.csv" "wallet"
      "address" "score";
    mkRegistryConfig "farcaster_users" "Solana x Farcaster Users"
      "Solana wallets linked to Farcaster social identities"
      "social_verification" "Top_Solana_Farcasters_Wallets.csv" "wallet"
      "identifier" "scores";
    mkRegistryConfig "top_kols" "Solana KOLs"
      "Key Opinion Leaders in the Solana ecosystem with verified wallets"
      "social_verification" "Top_Solana_KOL_Wallets.csv" "wallet"
      "identifier" "score";
    mkRegistryConfig "top_tokens" "Top Solana Tokens (Bankr)"
      "Top tokens by market cap tracked by Bankr"
      "token_analysis" "Top_Bankr_Solana_Tokens.csv" "token"
      "identifier" "score";
    mkRegistryConfig "trending_tokens" "Top Traded Tokens (24h)"
      "Most traded tokens in the last 24 hours"
      "token_analysis" "Top_Traded_24hrs_Tokens.csv" "token"
      "identifier" "score" ].

(** [new Set(values)] read back by [Array.from]: the distinct values in
    the order of their first occurrence. *)
Definition setAdd (seen : list string) (v : string) : list string :=
  if existsb (String.eqb v) seen then seen else (seen ++ [v])%list.

Definition arrayFromSet (values : list string) : list string :=
  fold_left setAdd values [].

(** The two exported functions, over an arbitrary configuration list. *)
Definition contextsOf (configs : list RegistryConfig) : list string :=
  arrayFromSet (map context configs).

Definition registriesByContextOf (configs : list RegistryConfig)
  (c : string) : list RegistryConfig :=
  filter (fun r => String.eqb (context r) c) configs.

Definition getContexts : list string := contextsOf registryConfigs.

Definition getRegistriesByContext (c : string) : list RegistryConfig :=
  registriesByContextOf registryConfigs c.

End Ingestion.

(* ------------------------------------------------------------------ *)
(** ** The earlier payment middleware (proof-token only) *)

Module X402Legacy.

Import JS.

Record Config : Type := mkConfig {
  paymentsMode : X402.Mode;
  payaiFacilitatorUrl : string
}.

Record Request : Type := mkRequest {
  path : string;
  x_payment_proof : option string;    (* req.headers['x-payment-proof'] *)
  x_payment_token : option string     (* req.headers['x-payment-token'] *)
}.

Record PaymentContext : Type := mkContext {
  requestId : string;
  paid : bool;
  paymentRef : option string
}.

Record PaymentInstructions : Type := mkInstructions {
  method : string;
  headers_required : list string;
  retry_with_proof : bool
}.

Record X402Response : Type := mkX402Response {
  error : string;
  message : string;
  price_usd : Q;
  facilitator_url : string;
  request_id : string;
  endpoint : string;
  payment_instructions : PaymentInstructions
}.

Inductive Outcome : Type :=
| Next (ctx : PaymentContext)
| PaymentRequired (body : X402Response).

Definition validateMockPayment (req : Request) : bool * option string :=
  let paymentProof := x_payment_proof req in
  let paymentToken := x_payment_token req in
  if truthy_header (X402.orHeader paymentProof paymentToken)
  then (true, X402.orHeader paymentProof paymentToken)
  else (false, None).

Definition validateLivePayment (req : Request) : bool * option string :=
  let paymentProof := x_payment_proof req in
  if negb (truthy_header paymentProof) then (false, None)
  else (true, paymentProof).

(** The middleware; the ledger is threaded as the list of its rows. *)
Definition x402Middleware (config : Config) (priceUsd : Q)
  (requestId : string) (req : Request) (ledger : list X402.PaymentLog)
  : Outcome * list X402.PaymentLog :=
  let validation :=
    match paymentsMode config with
    | X402.mock => validateMockPayment req
    | X402.live => validateLivePayment req
    end in
  if fst validation then
    (Next (mkContext requestId true (snd validation)),
     (ledger ++ [X402.mkLog requestId (path req) priceUsd "completed"
                            (snd validation)])%list)
  else
    (PaymentRequired
       (mkX402Response "payment_required"
          "x402 payment required to access this endpoint"
          priceUsd (payaiFacilitatorUrl config) requestId (path req)
          (mkInstructions "x402" ["X-Payment-Proof"] true)),
     (ledger ++ [X402.mkLog requestId (path req) priceUsd "pending" None])%list).

End X402Legacy.

(* ------------------------------------------------------------------ *)
(** ** Further sample data *)

Module Samples.

Import Trust.

Definition top_tokens : Registry := mkRegistry "top_tokens" "token_analysis".

(** One wallet listed in two contexts. *)
Definition store_mixed : Store :=
  mkStore [Examples.W1; Examples.W2]
    [ mkEntry "entry_1" Examples.W1 Examples.top_whales (8 # 10)
              "2026-02-06T12:00:00.000Z";
      mkEntry "entry_2" Examples.W1 Examples.top_kols (2 # 10)
              "2026-02-06T12:01:00.000Z";
      mkEntry "entry_3" Examples.W1 Examples.top_dex_traders (6 # 10)
              "2026-02-06T12:02:00.000Z";
      mkEntry "entry_4" Examples.W2 Examples.top_whales (9 # 10)
              "2026-02-06T12:03:00.000Z" ].

Definition config_mock : X402.Config :=
  X402.mkConfig X402.mock (2 # 100) (1 # 100) (5 # 100) "" "".

Definition request_proof (proof payment : option string) : X402.Request :=
  X402.mkRequest "http" "localhost:3000" "/v1/trust/top?context=copy_trading"
                 "/trust/top" payment proof.

(** A facilitator that cannot be reached: every [fetch] throws. *)
Definition facilitator_down : X402.Facilitator :=
  X402.mkFacilitator (fun _ _ => None) (fun _ _ => None).

Definition legacy_live : X402Legacy.Config :=
  X402Legacy.mkConfig X402.live "https://facilitator.payai.network".

End Samples.

(* ------------------------------------------------------------------ *)
(** ** The aggregation in double precision

    The same functions of [api/trust.ts] with a [number] read as an IEEE
    754 double: every sum, product, quotient and comparison is the
    machine operation, in the order the code performs it. The properties
    that depend on how the arithmetic rounds are stated over this
    module. *)

Module Double.

Import PrimFloat FloatOps SpecFloat.

(** [a >= b] and [a > b]; both are false when an operand is [NaN]. *)
Definition geb (a b : float) : bool := PrimFloat.leb b a.
Definition gtb (a b : float) : bool := PrimFloat.ltb b a.

Definition geb_undef (a : float) (b : option float) : bool :=
  match b with
  | Some b' => geb a b'
  | None => false
  end.

(** The exact value of a finite double; [None] for [NaN] and the
    infinities. *)
Definition toQ (x : float) : option Q :=
  match Prim2SF x with
  | S754_zero _ => Some 0
  | S754_finite s m e =>
      let magnitude :=
        match e with
        | Z0 => inject_Z (Zpos m)
        | Zpos p => inject_Z (Zpos m * 2 ^ Zpos p)
        | Zneg p => Zpos m # (2 ^ p)
        end in
      Some (if s then - magnitude else magnitude)
  | _ => None
  end.

(** The double of an integer (exact below 2^53). *)
Definition ofZ (z : Z) : float :=
  if (z <? 0)%Z then PrimFloat.opp (of_uint63 (Uint63.of_Z (- z)))
  else of_uint63 (Uint63.of_Z z).

Definition ofNat (n : nat) : float := ofZ (Z.of_nat n).

Definition isIntegral (q : Q) : bool := Qeq_bool (inject_Z (Qfloor q)) q.

(** [Math.round]: a value that is not finite, or is integral, is returned
    as it is; otherwise the nearest integer, a tie going towards plus
    infinity, with the sign of the argument kept on a zero result. *)
Definition Math_round (x : float) : float :=
  match toQ x with
  | None => x
  | Some q =>
      if isIntegral q then x
      else
        let z := Qfloor (q + (1 # 2)) in
        if (z =? 0)%Z then (if Qle_bool 0 q then zero else neg_zero)
        else ofZ z
  end.

(** [Math.round(x * 10000) / 10000] *)
Definition round4 (x : float) : float :=
  (Math_round (x * 10000) / 10000)%float.

Record Thresholds : Type := mkThresholds {
  t_allow : float;
  t_limit : float;
  t_review : float
}.

Definition thresholds : list (string * Thresholds) :=
  [ ("copy_trading",   mkThresholds 0.7 0.4 0.2);
    ("token_analysis", mkThresholds 0.6 0.3 0.1);
    ("kyc",            mkThresholds 0.8 0.5 0.3);
    ("rugger_check",   mkThresholds 0.0 0.0 0.3);
    ("default",        mkThresholds 0.6 0.3 0.1) ]%float.

Fixpoint ownProperty (key : string) (tbl : list (string * Thresholds))
  : option Thresholds :=
  match tbl with
  | [] => None
  | (k, t) :: rest => if String.eqb k key then Some t else ownProperty key rest
  end.

Inductive Lookup : Type :=
| Own (t : Thresholds)
| Inherited
| Undefined.

Definition thresholds_get (context : string) : Lookup :=
  match ownProperty context thresholds with
  | Some t => Own t
  | None => if JS.inheritedKey context then Inherited else Undefined
  end.

Definition selectThresholds (context : string) : Lookup :=
  match thresholds_get context with
  | Undefined => thresholds_get "default"
  | found => found
  end.

Definition field (proj : Thresholds -> float) (t : Lookup) : option float :=
  match t with
  | Own th => Some (proj th)
  | _ => None
  end.

Definition getDecisionHint (score : float) (context : string)
  : Trust.DecisionHint :=
  let t := selectThresholds context in
  if String.eqb context "rugger_check" then
    if geb_undef score (field t_review t) then Trust.deny
    else if gtb score zero then Trust.review
    else Trust.allow
  else
    if geb_undef score (field t_allow t) then Trust.allow
    else if geb_undef score (field t_limit t) then Trust.allow_with_limit
    else if geb_undef score (field t_review t) then Trust.review
    else Trust.deny.

Record RegistryEntry : Type := mkEntry {
  id : string;
  entity : Trust.Entity;
  registry : Trust.Registry;
  score : float;
  computedAt : Trust.Date
}.

Record Store : Type := mkStore {
  entities : list Trust.Entity;
  registryEntries : list RegistryEntry
}.

Record TrustQueryResponse : Type := mkResponse {
  entity_id : string;
  context : string;
  resp_score : float;
  decision_hint : Trust.DecisionHint;
  provenance : list Trust.ProvenanceItem;
  generated_at : string
}.

Definition findFirstEntity (st : Store) (ty addr : string)
  : option Trust.Entity :=
  find (fun e => String.eqb (Trust.entityType e) ty
                 && String.eqb (Trust.address e) addr
                 && String.eqb (Trust.chain e) "solana")
       (entities st).

Definition entriesOf (st : Store) (e : Trust.Entity) (ctx : option string)
  : list RegistryEntry :=
  filter (fun r => String.eqb (Trust.entity_key (entity r)) (Trust.entity_key e)
                   && match ctx with
                      | Some c =>
                          String.eqb (Trust.registry_context (registry r)) c
                      | None => true
                      end)
         (registryEntries st).

Definition provenanceOf (entry : RegistryEntry) : Trust.ProvenanceItem :=
  Trust.mkProv (Trust.slug (registry entry)) (id entry)
               (Trust.toISOString (computedAt entry)).

Record Acc : Type := mkAcc {
  totalScore : float;
  totalWeight : float;
  acc_provenance : list Trust.ProvenanceItem
}.

(** One iteration of [for (const entry of entity.registryEntries)]. *)
Definition accumulate (a : Acc) (entry : RegistryEntry) : Acc :=
  let weight := one in
  mkAcc (totalScore a + score entry * weight)%float
        (totalWeight a + weight)%float
        (acc_provenance a ++ [provenanceOf entry]).

Definition queryTrust (st : Store) (now : string)
  (params : Trust.TrustQueryParams) : option TrustQueryResponse :=
  let entityType := Trust.p_entityType params in
  let identifier := Trust.p_identifier params in
  let context := Trust.p_context params in
  let found :=
    match findFirstEntity st entityType identifier with
    | Some e => Some (entriesOf st e (Some context))
    | None => None
    end in
  match found with
  | None | Some [] =>
      Some (mkResponse (Trust.entityIdOf entityType identifier) context
                       zero Trust.review [] now)
  | Some entries =>
      let a := fold_left accumulate entries (mkAcc zero zero []) in
      let aggregatedScore :=
        if gtb (totalWeight a) zero
        then (totalScore a / totalWeight a)%float else zero in
      Some (mkResponse (Trust.entityIdOf entityType identifier) context
                       (round4 aggregatedScore)
                       (getDecisionHint aggregatedScore context)
                       (acc_provenance a)
                       now)
  end.

Definition findManyEntities (st : Store) (addr : string) : list Trust.Entity :=
  filter (fun e => String.eqb (Trust.address e) addr
                   && String.eqb (Trust.chain e) "solana")
         (entities st).

Definition ContextMap : Type := list (string * list RegistryEntry).

Fixpoint pushInto (m : ContextMap) (ctx : string) (entry : RegistryEntry)
  : ContextMap :=
  match m with
  | [] => [(ctx, [entry])]
  | (k, es) :: rest =>
      if String.eqb k ctx then (k, (es ++ [entry])%list) :: rest
      else (k, es) :: pushInto rest ctx entry
  end.

Definition groupByContext (entries : list RegistryEntry) : ContextMap :=
  fold_left (fun m entry =>
               pushInto m (Trust.registry_context (registry entry)) entry)
            entries [].

Definition accumulateGroup (a : float * list Trust.ProvenanceItem)
  (entry : RegistryEntry) : float * list Trust.ProvenanceItem :=
  ((fst a + score entry)%float, (snd a ++ [provenanceOf entry])%list).

Definition aggregateGroup (e : Trust.Entity) (now : string)
  (group : string * list RegistryEntry) : TrustQueryResponse :=
  let (ctx, entries) := group in
  let a := fold_left accumulateGroup entries (zero, []) in
  let avgScore :=
    if gtb (ofNat (List.length entries)) zero
    then (fst a / ofNat (List.length entries))%float else zero in
  mkResponse (Trust.entityIdOf (Trust.entityType e) (Trust.address e)) ctx
             (round4 avgScore) (getDecisionHint avgScore ctx) (snd a) now.

Definition queryEntityTrust (st : Store) (now : string)
  (params : Trust.TrustEntityParams) : list TrustQueryResponse :=
  flat_map
    (fun e => map (aggregateGroup e now)
                  (groupByContext
                     (entriesOf st e
                        (Trust.whereContext (Trust.ep_context params)))))
    (findManyEntities st (Trust.ep_address params)).

(** *** The leaderboard, with the database call as a parameter *)

Inductive OrderKey : Type :=
| ScoreDesc                           (* { score: 'desc' } *)
| IdAsc.                              (* { id: 'asc' } *)

(** The argument of [prisma.registryEntry.findMany]. *)
Record FindManyArgs : Type := mkArgs {
  where_context : string;             (* registry: { context } *)
  where_slug_in : option (list string);  (* registry: { slug: { in } } *)
  orderBy : list OrderKey;
  take : float
}.

Record TrustTopParams : Type := mkTopParams {
  tp_context : string;
  tp_limit : float;
  tp_registrySlugs : option (list string)
}.

Record TopEntity : Type := mkTop {
  top_entity_id : string;
  top_display_name : option string;
  top_context : string;
  top_score : float;
  top_decision_hint : Trust.DecisionHint;
  top_registry : string;
  top_computed_at : string
}.

(** The object the code passes: the slug condition is present only for a
    non-empty list of slugs, and [score] is the only sort key. *)
Definition topArgs (params : TrustTopParams) : FindManyArgs :=
  mkArgs (tp_context params)
         (match tp_registrySlugs params with
          | Some (s :: more) => Some (s :: more)
          | _ => None
          end)
         [ScoreDesc]
         (tp_limit params).

Definition toTopEntity (context : string) (entry : RegistryEntry) : TopEntity :=
  mkTop (Trust.entityIdOf (Trust.entityType (entity entry))
                          (Trust.address (entity entry)))
        (Trust.displayName (entity entry))
        context
        (round4 (score entry))
        (getDecisionHint (score entry) context)
        (Trust.slug (registry entry))
        (Trust.toISOString (computedAt entry)).

Section Leaderboard.

(** [prisma.registryEntry.findMany]: the rows it resolves to, or [None]
    when it rejects. *)
Variable findMany : FindManyArgs -> option (list RegistryEntry).

Definition queryTopEntities (params : TrustTopParams)
  : option (list TopEntity) :=
  option_map (map (toTopEntity (tp_context params)))
             (findMany (topArgs params)).

(** [req.query] of [GET /trust/top]; [limit] is [Number(value)] when the
    parameter is present. *)
Record TopQuery : Type := mkTopQuery {
  q_context : Routes.Param;
  q_limit : option float;
  q_registry_slugs : Routes.Param
}.

(** [x !== x] *)
Definition isNaN (x : float) : bool := negb (PrimFloat.eqb x x).

(** [z.coerce.number().min(1).max(100).default(50)]: [NaN] is not a
    number for the schema, a value below 1 is too small, a value above 100
    too big. *)
Definition limitSchema (raw : option float) : option float :=
  match raw with
  | None => Some 50%float
  | Some x =>
      if isNaN x then None
      else if PrimFloat.ltb x 1 then None
      else if PrimFloat.ltb 100 x then None
      else Some x
  end.

Definition trustTopQuerySchema (q : TopQuery)
  : option (string * float * option string) :=
  match q_context q, limitSchema (q_limit q), q_registry_slugs q with
  | Routes.Text context, Some limit, Routes.Missing =>
      Some (context, limit, None)
  | Routes.Text context, Some limit, Routes.Text slugs =>
      Some (context, limit, Some slugs)
  | _, _, _ => None
  end.

Inductive TopResponse : Type :=
| Top200 (context : string) (limit : float) (count : nat)
         (entities : list TopEntity)
| Top400
| Top500.                            (* the [catch] branch *)

Definition trustTopHandler (q : TopQuery) : TopResponse :=
  match trustTopQuerySchema q with
  | None => Top400
  | Some (context, limit, registry_slugs) =>
      let slugs :=
        option_map (fun s => filter JS.truthy_string (Api.split_comma s))
                   registry_slugs in
      match queryTopEntities (mkTopParams context limit slugs) with
      | Some results => Top200 context limit (List.length results) results
      | None => Top500
      end
  end.

End Leaderboard.

End Double.

(* ------------------------------------------------------------------ *)
(** ** Vocabulary for the double-precision properties *)

Module SpecDouble.

Import PrimFloat.

(** The mean as [queryTrust] computes it: the scores, each times the
    weight, added from left to right, over the weights added from left to
    right. *)
Definition weightedMean (weight : float) (scores : list float) : float :=
  let total := fold_left (fun a s => (a + s * weight)%float) scores zero in
  let weights := fold_left (fun a _ => (a + weight)%float) scores zero in
  if Double.gtb weights zero then (total / weights)%float else zero.

(** The mean as [queryEntityTrust] computes it: the scores added from left
    to right, over their number. *)
Definition plainMean (scores : list float) : float :=
  let total := fold_left (fun a s => (a + s)%float) scores zero in
  if Double.gtb (Double.ofNat (List.length scores)) zero
  then (total / Double.ofNat (List.length scores))%float else zero.

(** The threshold table of a context: the defaults unless the context has
    an entry of its own. *)
Definition thresholdsFor (context : string) : Double.Thresholds :=
  match Double.ownProperty context Double.thresholds with
  | Some t => t
  | None => Double.mkThresholds 0.6 0.3 0.1
  end.

(** The decision-hint table, its comparisons those of doubles. The
    inverted context says nothing about a score that is negative or not a
    number. *)
Definition decisionHintTable (score : float) (context : string)
  : option Trust.DecisionHint :=
  let t := thresholdsFor context in
  if String.eqb context "rugger_check" then
    if PrimFloat.leb (Double.t_review t) score then Some Trust.deny
    else if PrimFloat.ltb zero score then Some Trust.review
    else if PrimFloat.eqb score zero then Some Trust.allow
    else None
  else
    if PrimFloat.leb (Double.t_allow t) score then Some Trust.allow
    else if PrimFloat.leb (Double.t_limit t) score
    then Some Trust.allow_with_limit
    else if PrimFloat.leb (Double.t_review t) score then Some Trust.review
    else Some Trust.deny.

(** A row satisfies the [where] object. *)
Definition matches (args : Double.FindManyArgs) (r : Double.RegistryEntry)
  : Prop :=
  Trust.registry_context (Double.registry r) = Double.where_context args
  /\ match Double.where_slug_in args with
     | Some slugs => In (Trust.slug (Double.registry r)) slugs
     | None => True
     end.

Definition keyBefore (k : Double.OrderKey) (a b : Double.RegistryEntry)
  : Prop :=
  match k with
  | Double.ScoreDesc => PrimFloat.ltb (Double.score b) (Double.score a) = true
  | Double.IdAsc => String.ltb (Double.id a) (Double.id b) = true
  end.

Definition keyEqual (k : Double.OrderKey) (a b : Double.RegistryEntry)
  : Prop :=
  match k with
  | Double.ScoreDesc => PrimFloat.eqb (Double.score a) (Double.score b) = true
  | Double.IdAsc => Double.id a = Double.id b
  end.

(** [a] may come before [b] under the sort keys, read in order; rows equal
    on every key may come in either order. *)
Fixpoint mayPrecede (keys : list Double.OrderKey)
  (a b : Double.RegistryEntry) : Prop :=
  match keys with
  | [] => True
  | k :: more => keyBefore k a b \/ (keyEqual k a b /\ mayPrecede more a b)
  end.

(** What [findMany] promises for a store: the answer is the first [take]
    rows of the matching rows put in an order the sort keys allow. Nothing
    is promised for a [take] that is not a non-negative integer. *)
Definition conforms (st : Double.Store) (args : Double.FindManyArgs)
  (answer : list Double.RegistryEntry) : Prop :=
  exists (selected : Double.RegistryEntry -> bool)
         (ordered : list Double.RegistryEntry) (q : Q) (n : Z),
    (forall r, selected r = true <-> matches args r)
    /\ Permutation ordered (filter selected (Double.registryEntries st))
    /\ StronglySorted (mayPrecede (Double.orderBy args)) ordered
    /\ Double.toQ (Double.take args) = Some q
    /\ q == inject_Z n
    /\ (0 <= n)%Z
    /\ answer = firstn (Z.to_nat n) ordered.

End SpecDouble.

(* ------------------------------------------------------------------ *)
(** ** Sample data in double precision *)

Module SamplesDouble.

Import PrimFloat.

Definition entry (id : string) (e : Trust.Entity) (r : Trust.Registry)
  (score : float) : Double.RegistryEntry :=
  Double.mkEntry id e r score "2026-02-06T12:00:00.000Z".

Definition store_two : Double.Store :=
  Double.mkStore [Examples.W1]
    [ entry "entry_1" Examples.W1 Examples.top_whales 0.0014;
      entry "entry_2" Examples.W1 Examples.top_dex_traders 0.0015 ]%float.

Definition store_negative : Double.Store :=
  Double.mkStore [Examples.W1]
    [ entry "entry_1" Examples.W1 Examples.top_dex_traders (-0.03125) ]%float.

Definition store_boundary : Double.Store :=
  Double.mkStore [Examples.W1]
    [ entry "entry_1" Examples.W1 Examples.top_kols 0.59996 ]%float.

Definition entry_a : Double.RegistryEntry :=
  entry "entry_a" Examples.W2 Examples.top_whales 0.5%float.
Definition entry_b : Double.RegistryEntry :=
  entry "entry_b" Examples.W1 Examples.top_whales 0.5%float.
Definition entry_c : Double.RegistryEntry :=
  entry "entry_c" Examples.W1 Examples.top_dex_traders 0.75%float.

Definition store_tie : Double.Store :=
  Double.mkStore [Examples.W1; Examples.W2] [entry_b; entry_a; entry_c].

(** A database call that resolves to the given rows. *)
Definition answering (rows : list Double.RegistryEntry)
  : Double.FindManyArgs -> option (list Double.RegistryEntry) :=
  fun _ => Some rows.

End SamplesDouble.

(* ------------------------------------------------------------------ *)
(** ** Facts about the primitives *)

Module JSFacts.

Import JS.





Lemma geb_true (a b : Q) : geb a b = true <-> b <= a.
Proof. unfold geb. apply Qle_bool_iff. Qed.

Lemma gtb_true (a b : Q) : gtb a b = true <-> b < a.
Proof.
  unfold gtb. rewrite negb_true_iff. split.
  - intro H. apply Qnot_le_lt. intro L. apply Qle_bool_iff in L. congruence.
  - intro H. destruct (Qle_bool a b) eqn:E; [|reflexivity].
    apply Qle_bool_iff in E. exfalso. exact (Qlt_not_le _ _ H E).
Qed.

Lemma gtb_false (a b : Q) : gtb a b = false <-> a <= b.
Proof.
  unfold gtb. rewrite negb_false_iff. apply Qle_bool_iff.
Qed.

End JSFacts.

(* ------------------------------------------------------------------ *)
(** ** Properties of the trust aggregation *)

Module TrustFacts.

Import JS JSFacts Trust.



Lemma lengthQ_cons {A : Type} (a : A) (l : list A) :
  lengthQ (a :: l) == lengthQ l + 1.
Proof.
  unfold lengthQ. cbn [List.length]. rewrite Nat2Z.inj_succ.
  unfold Z.succ. rewrite inject_Z_plus. reflexivity.
Qed.

Lemma lengthQ_nonneg {A : Type} (l : list A) : 0 <= lengthQ l.
Proof.
  unfold lengthQ. change 0 with (inject_Z 0). rewrite <- Zle_Qle. lia.
Qed.

Lemma lengthQ_pos {A : Type} (a : A) (l : list A) : 0 < lengthQ (a :: l).
Proof.
  rewrite lengthQ_cons. pose proof (lengthQ_nonneg l) as H.
  apply Qlt_le_trans with (0 + 1); [reflexivity|].
  now apply Qplus_le_l.
Qed.

(** The loop of [queryTrust], from any state of the accumulator. *)
Lemma accumulate_fold (entries : list RegistryEntry) (a : Acc) :
  let a' := fold_left accumulate entries a in
  totalScore a' == totalScore a + Spec.sumQ (map score entries)
  /\ totalWeight a' == totalWeight a + lengthQ entries
  /\ acc_provenance a' = (acc_provenance a ++ map provenanceOf entries)%list.
Proof.
  revert a. induction entries as [|x xs IH]; intro a; cbn zeta.
  - cbn [fold_left map Spec.sumQ fold_right]. split; [|split].
    + ring.
    + unfold lengthQ. cbn [List.length Z.of_nat]. change (inject_Z 0) with 0. ring.
    + now rewrite app_nil_r.
  - cbn [fold_left map]. destruct (IH (accumulate a x)) as (Hs & Hw & Hp).
    cbn zeta in Hs, Hw, Hp. rewrite Hs, Hw, Hp. cbn [accumulate totalScore
      totalWeight acc_provenance Spec.sumQ fold_right].
    repeat split.
    + fold (Spec.sumQ (map score xs)). ring.
    + rewrite lengthQ_cons. ring.
    + now rewrite <- app_assoc.
Qed.


(** What [queryTrust] returns for an entity with at least one entry in the
    context: hint and score are both computed from one number, which is
    the mean of the entry scores. *)
Lemma queryTrust_aggregates (st : Store) (now : string)
  (params : TrustQueryParams) (e : Entity) (x : RegistryEntry)
  (xs : list RegistryEntry) :
  findFirstEntity st (p_entityType params) (p_identifier params) = Some e ->
  entriesOf st e (Some (p_context params)) = x :: xs ->
  exists agg : Q,
    agg == Spec.mean (map score (x :: xs))
    /\ queryTrust st now params =
       Some (mkResponse (entityIdOf (p_entityType params) (p_identifier params))
               (p_context params)
               (round4 agg) (getDecisionHint agg (p_context params))
               (map provenanceOf (x :: xs)) now).
Proof.
  intros Hfind Hentries. unfold queryTrust. rewrite Hfind, Hentries.
  destruct (accumulate_fold (x :: xs) (mkAcc 0 0 [])) as (Hs & Hw & Hp).
  cbn zeta in Hs, Hw, Hp. cbn [totalScore totalWeight acc_provenance] in Hs, Hw, Hp.
  set (a := fold_left accumulate (x :: xs) (mkAcc 0 0 [])) in *.
  assert (Hpos : gtb (totalWeight a) 0 = true).
  { apply gtb_true. rewrite Hw, Qplus_0_l. apply lengthQ_pos. }
  rewrite Hpos, Hp. cbn [app].
  exists (totalScore a / totalWeight a). split; [|reflexivity].
  unfold Spec.mean. rewrite Hs, Hw, !Qplus_0_l.
  unfold lengthQ. rewrite length_map. reflexivity.
Qed.

(** C1 fails as stated: one entry with score -1/32 has mean -0.03125, which
    rounds half away from zero to -0.0313, while the returned score is
    -0.0312. *)
Lemma queryTrust_negative_tie_not_away_from_zero :
  exists r : TrustQueryResponse,
    queryTrust Examples.store_negative Examples.now Examples.query_W1 = Some r
    /\ resp_score r == - (312 # 10000)
    /\ Spec.roundHalfAwayFromZero4
         (Spec.mean
            (map score (entriesOf Examples.store_negative Examples.W1
                                  (Some "copy_trading"))))
       == - (313 # 10000)
    /\ ~ resp_score r
         == Spec.roundHalfAwayFromZero4
              (Spec.mean
                 (map score (entriesOf Examples.store_negative Examples.W1
                                       (Some "copy_trading")))).
Proof.
  eexists. split; [reflexivity|].
  split; [reflexivity|]. split; [reflexivity|].
  vm_compute. discriminate.
Qed.

(** C5: when the entity is not in the store, or is there without any entry
    for the requested context, [queryTrust] returns the neutral result:
    score 0, hint [review], empty provenance. *)
Theorem queryTrust_neutral (st : Store) (now : string)
  (params : TrustQueryParams) :
  (findFirstEntity st (p_entityType params) (p_identifier params) = None
   \/ exists e : Entity,
        findFirstEntity st (p_entityType params) (p_identifier params) = Some e
        /\ entriesOf st e (Some (p_context params)) = []) ->
  queryTrust st now params =
  Some (mkResponse (entityIdOf (p_entityType params) (p_identifier params))
          (p_context params) 0 review [] now).
Proof.
  intros [Hnone | (e & Hsome & Hempty)]; unfold queryTrust.
  - now rewrite Hnone.
  - now rewrite Hsome, Hempty.
Qed.

Lemma queryTrust_neutral_witness :
  queryTrust Examples.store_two Examples.now Examples.query_W3 =
  Some (mkResponse "wallet:W3" "copy_trading" 0 review [] Examples.now)
  /\ queryTrust Examples.store_two Examples.now Examples.query_W1_social =
     Some (mkResponse "wallet:W1" "social_verification" 0 review []
             Examples.now).
Proof.
  split.
  - apply (queryTrust_neutral Examples.store_two Examples.now Examples.query_W3).
    left. reflexivity.
  - apply (queryTrust_neutral Examples.store_two Examples.now
             Examples.query_W1_social).
    right. exists Examples.W1. split; reflexivity.
Defined.

(** [queryTrust] never returns [null], so the handler of
    [POST /trust/query] has no 404 answer. *)
Lemma queryTrust_not_null (st : Store) (now : string)
  (params : TrustQueryParams) :
  queryTrust st now params <> None.
Proof.
  unfold queryTrust.
  destruct (findFirstEntity st (p_entityType params) (p_identifier params))
    as [e|]; [|discriminate].
  destruct (entriesOf st e (Some (p_context params))); discriminate.
Qed.

Lemma trustQueryHandler_never_404 (st : Store) (now : string)
  (body : option Api.QueryBody) :
  Api.trustQueryHandler st now body <> Api.Query404.
Proof.
  unfold Api.trustQueryHandler.
  destruct (Api.trustQuerySchema body) as [b|]; [|discriminate].
  pose proof (queryTrust_not_null st now
                (mkParams (Api.b_type b) (Api.b_identifier b) (Api.b_context b)))
    as H.
  destruct (queryTrust st now _); [discriminate | congruence].
Qed.

(** *** Provenance *)

(** C7, as the code has it: for an entity with at least one entry in the
    context, the provenance holds one (registry slug, entry identifier,
    computed-at) triple per contributing entry, in the order in which the
    store yields the entries; nothing sorts it. *)
Theorem queryTrust_provenance_in_store_order (st : Store) (now : string)
  (params : TrustQueryParams) (e : Entity) :
  findFirstEntity st (p_entityType params) (p_identifier params) = Some e ->
  entriesOf st e (Some (p_context params)) <> [] ->
  exists r : TrustQueryResponse,
    queryTrust st now params = Some r
    /\ provenance r =
       map (fun entry => mkProv (slug (registry entry)) (id entry)
                                (computedAt entry))
           (entriesOf st e (Some (p_context params))).
Proof.
  intros Hfind Hne.
  destruct (entriesOf st e (Some (p_context params))) as [|x xs] eqn:Hentries;
    [congruence|].
  destruct (queryTrust_aggregates st now params e x xs Hfind Hentries)
    as (agg & _ & Hq).
  eexists. split; [exact Hq|]. reflexivity.
Qed.

Lemma queryTrust_provenance_in_store_order_witness :
  exists r : TrustQueryResponse,
    queryTrust Examples.store_two Examples.now Examples.query_W1 = Some r
    /\ map prov_registry (provenance r) = ["top_whales"; "top_dex_traders"].
Proof.
  destruct (queryTrust_provenance_in_store_order Examples.store_two
              Examples.now Examples.query_W1 Examples.W1) as (r & Hq & Hp).
  - reflexivity.
  - vm_compute. discriminate.
  - exists r. split; [exact Hq|]. rewrite Hp. reflexivity.
Defined.

(** C7 fails as stated: the store yields the entry of [top_whales] before
    the one of [top_dex_traders], and so does the provenance, which is then
    not ascending in the slug; the same rows yielded in the other order
    give another provenance. *)
Lemma queryTrust_provenance_not_sorted :
  exists r r' : TrustQueryResponse,
    queryTrust Examples.store_two Examples.now Examples.query_W1 = Some r
    /\ ~ Sorted Spec.slugAsc (provenance r)
    /\ Permutation (registryEntries Examples.store_two)
                   (registryEntries Examples.store_two_swapped)
    /\ queryTrust Examples.store_two_swapped Examples.now Examples.query_W1
       = Some r'
    /\ provenance r <> provenance r'.
Proof.
  eexists. eexists. split; [reflexivity|]. split; [|split; [|split]].
  - cbn [provenance]. intro H. inversion H as [|a l Hs Hd]; subst.
    inversion Hd as [|b l' Hab]; subst. vm_compute in Hab. discriminate.
  - apply perm_swap.
  - reflexivity.
  - cbn [provenance]. discriminate.
Qed.

(** *** Grouping by context *)

Lemma pushInto_nonempty (m : ContextMap) (ctx : string) (entry : RegistryEntry) :
  Forall (fun g => snd g <> []) m ->
  Forall (fun g => snd g <> []) (pushInto m ctx entry).
Proof.
  induction m as [|[k es] rest IH]; intro H; cbn [pushInto].
  - constructor; [discriminate | constructor].
  - inversion H as [|g l Hg Hrest]; subst.
    destruct (String.eqb k ctx).
    + constructor; [|assumption]. cbn [snd]. now destruct es.
    + constructor; [assumption | now apply IH].
Qed.

Lemma groupByContext_nonempty (entries : list RegistryEntry) :
  Forall (fun g => snd g <> []) (groupByContext entries).
Proof.
  unfold groupByContext.
  assert (G : forall m, Forall (fun g : string * list RegistryEntry => snd g <> []) m ->
            Forall (fun g => snd g <> [])
              (fold_left (fun m entry =>
                 pushInto m (registry_context (registry entry)) entry) entries m)).
  { induction entries as [|x xs IH]; intros m Hm; cbn [fold_left].
    - exact Hm.
    - apply IH. now apply pushInto_nonempty. }
  apply G. constructor.
Qed.


End TrustFacts.

(* ------------------------------------------------------------------ *)
(** ** Properties of the payment gate *)

Module X402Facts.

Import JS X402.

Section Gate.

Variable config : Config.
Variable facilitator : Facilitator.
Variable decode : string -> option json.

(** The shared tail: one [pending] row, no outbound call, a 402 response. *)
Lemma paymentRequired_run (priceUsd : Q) (requestId resourceUrl : string)
  (req : Request) (w : World) :
  exists body : X402PaymentRequirements,
    paymentRequired config priceUsd requestId resourceUrl req w =
    (Ok (PaymentRequired body),
     mkWorld (paymentLog w ++ [mkLog requestId (path req) priceUsd "pending" None])
             (outbound w)).
Proof.
  eexists. reflexivity.
Qed.

(** The live branch, case by case. *)
Lemma livePayment_run (priceUsd : Q) (requestId resourceUrl : string)
  (req : Request) (paymentPayload : json) (w : World) :
  match livePayment config facilitator priceUsd requestId resourceUrl req
          paymentPayload w with
  | (Ok (Next ctx _), w') =>
      exists ref : option string,
        paymentLog w' =
        (paymentLog w ++ [mkLog requestId (path req) priceUsd "completed" ref])%list
        /\ paid ctx = true
  | (Ok (PaymentRequired _), w') =>
      paymentLog w' =
      (paymentLog w ++ [mkLog requestId (path req) priceUsd "pending" None])%list
      /\ exists calls : list FacilitatorCall,
           calls <> [] /\ outbound w' = (outbound w ++ calls)%list
  | (TypeError, w') => w' = w
  end.
Proof.
  unfold livePayment, networkIsDevnet, bind.
  destruct (includesMethod (declaredNetwork paymentPayload) "devnet")
    as [isDevnet|]; [|reflexivity].
  cbn [ret].
  set (reqs := mkRequirements _ _ _ _ _ _ _ _ _).
  unfold verifyPayment, settlePayment, bind, send, ret.
  destruct (postVerify facilitator paymentPayload reqs) as [vb|];
    cbn [isValid paymentLog outbound].
  - destruct (isTrue (vb_isValid vb)).
    + destruct (postSettle facilitator paymentPayload reqs) as [sb|];
        cbn [success paymentLog outbound].
      * destruct (isTrue (sb_success sb)).
        -- cbn. eexists. split; reflexivity.
        -- cbn. split; [reflexivity|].
           exists [CallVerify paymentPayload reqs; CallSettle paymentPayload reqs].
           split; [discriminate|]. now rewrite <- app_assoc.
      * cbn. split; [reflexivity|].
        exists [CallVerify paymentPayload reqs; CallSettle paymentPayload reqs].
        split; [discriminate|]. now rewrite <- app_assoc.
    + cbn. split; [reflexivity|].
      exists [CallVerify paymentPayload reqs]. split; [discriminate|reflexivity].
  - cbn. split; [reflexivity|].
    exists [CallVerify paymentPayload reqs]. split; [discriminate|reflexivity].
Qed.

(** The ledger after one run: a run that ends in [next()] has appended one
    [completed] row, a run that ends in the 402 response one [pending] row;
    a run cut short by the exception has appended none. Earlier rows are
    left as they were. *)
Lemma x402Middleware_ledger (priceUsd : Q) (requestId : string)
  (req : Request) (w : World) :
  match x402Middleware config facilitator decode priceUsd requestId req w with
  | (Ok (Next ctx _), w') =>
      exists ref : option string,
        paymentLog w' =
        (paymentLog w ++ [mkLog requestId (path req) priceUsd "completed" ref])%list
        /\ paid ctx = true
  | (Ok (PaymentRequired _), w') =>
      paymentLog w' =
      (paymentLog w ++ [mkLog requestId (path req) priceUsd "pending" None])%list
  | (TypeError, w') => w' = w
  end.
Proof.
  unfold x402Middleware.
  destruct (paymentsMode config).
  - destruct (fst (validateMockPayment req)).
    + cbn. eexists. split; reflexivity.
    + reflexivity.
  - destruct (x_payment req) as [paymentHeader|]; [|reflexivity].
    destruct (truthy_string paymentHeader); [|reflexivity].
    destruct (truthy (parsePaymentHeader decode paymentHeader)); [|reflexivity].
    pose proof (livePayment_run priceUsd requestId
                  (protocol req ++ "://" ++ host req ++ originalUrl req)
                  req (parsePaymentHeader decode paymentHeader) w) as H.
    destruct (livePayment config facilitator priceUsd requestId _ req _ w)
      as [[[ctx hdr|body]|] w'].
    + exact H.
    + exact (proj1 H).
    + exact H.
Qed.

(** The requirement record of the live branch: the network is the one the
    payload declares when that is truthy, else the literal
    ["solana-devnet"]; the asset follows from that network. *)
Lemma livePayment_requirements (priceUsd : Q) (requestId resourceUrl : string)
  (req : Request) (paymentPayload : json) (w : World) (isDevnet : bool) :
  includesMethod (declaredNetwork paymentPayload) "devnet" = Some isDevnet ->
  exists (reqs : PaymentRequirements) (more : list FacilitatorCall),
    outbound (snd (livePayment config facilitator priceUsd requestId
                     resourceUrl req paymentPayload w))
    = (outbound w ++ CallVerify paymentPayload reqs :: more)%list
    /\ pr_network reqs = declaredNetwork paymentPayload
    /\ pr_asset reqs = (if isDevnet then USDC_SOLANA_DEVNET else USDC_SOLANA).
Proof.
  intro Hinc. unfold livePayment, networkIsDevnet, bind. rewrite Hinc.
  cbn [ret].
  set (reqs := mkRequirements _ _ _ _ _ _ _ _ _).
  exists reqs.
  unfold verifyPayment, settlePayment, bind, send, ret.
  destruct (postVerify facilitator paymentPayload reqs) as [vb|];
    cbn [isValid paymentLog outbound].
  - destruct (isTrue (vb_isValid vb)).
    + destruct (postSettle facilitator paymentPayload reqs) as [sb|];
        cbn [success paymentLog outbound].
      * destruct (isTrue (sb_success sb)); cbn;
          exists [CallSettle paymentPayload reqs];
          (split; [now rewrite <- app_assoc | split; reflexivity]).
      * cbn. exists [CallSettle paymentPayload reqs].
        split; [now rewrite <- app_assoc | split; reflexivity].
    + cbn. exists []. repeat split.
  - cbn. exists []. repeat split.
Qed.

(** C8, as the code has it: a run that ends in the 402 response has written
    one row with status [pending], whether the request carried no usable
    payment or the facilitator refused it; a run that ends in [next()] has
    written one row with status [completed]. No row has status [failed]. *)
Theorem ledger_status_by_outcome (priceUsd : Q) (requestId : string)
  (req : Request) (w w' : World) (out : Outcome) :
  x402Middleware config facilitator decode priceUsd requestId req w
  = (Ok out, w') ->
  exists row : PaymentLog,
    paymentLog w' = (paymentLog w ++ [row])%list
    /\ log_requestId row = requestId
    /\ log_status row = match out with
                        | Next _ _ => "completed"
                        | PaymentRequired _ => "pending"
                        end
    /\ log_status row <> "failed".
Proof.
  intro Hrun.
  pose proof (x402Middleware_ledger priceUsd requestId req w) as H.
  rewrite Hrun in H. destruct out as [ctx hdr|body].
  - destruct H as (ref & Hlog & _). eexists. split; [exact Hlog|].
    repeat split. discriminate.
  - eexists. split; [exact H|]. repeat split. discriminate.
Qed.

(** C6: in live mode a request without [X-PAYMENT] header, or with one that
    does not parse, is answered with the 402 challenge, and the facilitator
    is not called: the list of outbound calls is unchanged. *)
Theorem live_unparsable_denied_without_call (priceUsd : Q)
  (requestId : string) (req : Request) (w : World) :
  paymentsMode config = live ->
  (x_payment req = None
   \/ exists header : string,
        x_payment req = Some header /\ decode header = None) ->
  exists body : X402PaymentRequirements,
    x402Middleware config facilitator decode priceUsd requestId req w
    = (Ok (PaymentRequired body),
       mkWorld (paymentLog w ++ [mkLog requestId (path req) priceUsd "pending" None])
               (outbound w)).
Proof.
  intros Hlive Hheader. unfold x402Middleware. rewrite Hlive.
  destruct Hheader as [Habsent | (header & Hsome & Hparse)].
  - rewrite Habsent. apply paymentRequired_run.
  - rewrite Hsome. unfold parsePaymentHeader. rewrite Hparse.
    cbn [truthy]. destruct (truthy_string header); apply paymentRequired_run.
Qed.

End Gate.

Lemma ledger_status_by_outcome_witness :
  exists (w' : World) (row : PaymentLog),
    fst (x402Middleware Examples.config_live_mainnet
           Examples.facilitator_accepting Examples.decode_sample (2 # 100)
           "req_1"
           (Examples.request_with (Some "eyJuZXR3b3JrIjoic29sYW5hLWRldm5ldCJ9"))
           Examples.empty_world)
    = Ok (Next (mkContext "req_1" true (Some "tx_1") (Some "payer_1"))
               (Some (mkSettlementResponse true (Some "tx_1")
                        (Some (JStr "solana-devnet")) (Some "payer_1"))))
    /\ paymentLog w' = [row]
    /\ log_status row = "completed".
Proof.
  destruct (ledger_status_by_outcome Examples.config_live_mainnet
              Examples.facilitator_accepting Examples.decode_sample (2 # 100)
              "req_1"
              (Examples.request_with (Some "eyJuZXR3b3JrIjoic29sYW5hLWRldm5ldCJ9"))
              Examples.empty_world
              (snd (x402Middleware Examples.config_live_mainnet
                      Examples.facilitator_accepting Examples.decode_sample
                      (2 # 100) "req_1"
                      (Examples.request_with
                         (Some "eyJuZXR3b3JrIjoic29sYW5hLWRldm5ldCJ9"))
                      Examples.empty_world))
              (Next (mkContext "req_1" true (Some "tx_1") (Some "payer_1"))
                    (Some (mkSettlementResponse true (Some "tx_1")
                             (Some (JStr "solana-devnet")) (Some "payer_1")))))
    as (row & Hlog & _ & Hstatus & _).
  - reflexivity.
  - eexists. exists row. split; [reflexivity|]. split; [exact Hlog | exact Hstatus].
Defined.

Lemma live_unparsable_denied_without_call_witness :
  (exists body : X402PaymentRequirements,
      x402Middleware Examples.config_live_mainnet Examples.facilitator_accepting
        Examples.decode_sample (2 # 100) "req_1" (Examples.request_with None)
        Examples.empty_world
      = (Ok (PaymentRequired body),
         mkWorld [mkLog "req_1" "/trust/query" (2 # 100) "pending" None] []))
  /\ (exists body : X402PaymentRequirements,
        x402Middleware Examples.config_live_mainnet
          Examples.facilitator_accepting Examples.decode_sample (2 # 100)
          "req_2" (Examples.request_with (Some "not base64 json"))
          Examples.empty_world
        = (Ok (PaymentRequired body),
           mkWorld [mkLog "req_2" "/trust/query" (2 # 100) "pending" None] [])).
Proof.
  split.
  - apply (live_unparsable_denied_without_call Examples.config_live_mainnet
             Examples.facilitator_accepting Examples.decode_sample (2 # 100)
             "req_1" (Examples.request_with None) Examples.empty_world).
    + reflexivity.
    + left. reflexivity.
  - apply (live_unparsable_denied_without_call Examples.config_live_mainnet
             Examples.facilitator_accepting Examples.decode_sample (2 # 100)
             "req_2" (Examples.request_with (Some "not base64 json"))
             Examples.empty_world).
    + reflexivity.
    + right. exists "not base64 json". split; reflexivity.
Defined.

(** C8 fails as stated: the payload reaches the facilitator, whose
    [verify] answers that it is invalid, and the one row written for the
    denied request has status [pending], not [failed]. *)
Lemma refused_payment_row_is_pending :
  exists (body : X402PaymentRequirements) (reqs : PaymentRequirements)
         (row : PaymentLog),
    x402Middleware Examples.config_live_mainnet Examples.facilitator_rejecting
      Examples.decode_sample (2 # 100) "req_1"
      (Examples.request_with (Some "eyJuZXR3b3JrIjoic29sYW5hLWRldm5ldCJ9"))
      Examples.empty_world
    = (Ok (PaymentRequired body),
       mkWorld [row]
         [CallVerify (JObj [("network", JStr "solana-devnet")]) reqs])
    /\ option_map vb_isValid
         (postVerify Examples.facilitator_rejecting
            (JObj [("network", JStr "solana-devnet")]) reqs)
       = Some (Some false)
    /\ log_status row = "pending"
    /\ log_status row <> "failed".
Proof.
  eexists. eexists. eexists. split; [lazy; reflexivity|].
  split; [reflexivity|]. split; [reflexivity|]. discriminate.
Qed.

(** C3 at a payload whose [network] is the number 5: [network.includes]
    is not a function, the [TypeError] leaves the middleware before any
    [paymentLog.create], and the request has no ledger row; neither
    [next()] nor the 402 response is reached. *)
Theorem x402Middleware_throws_before_ledger :
  Examples.decode_sample_payload_is_object
  /\ forall (facilitator : Facilitator) (w : World),
       x402Middleware Examples.config_live_mainnet facilitator
         Examples.decode_sample (2 # 100) "req_1"
         (Examples.request_with (Some "eyJuZXR3b3JrIjo1fQ=="))
         w
       = (TypeError, w).
Proof.
  split; [reflexivity|]. intros facilitator w. reflexivity.
Qed.

(** C9 at a payload that declares no network, under a configuration whose
    default network is ["solana"]: the requirement sent to [verify] names
    the literal ["solana-devnet"] and the devnet USDC mint, while the
    challenge of the same run names the configured ["solana"] and the
    mainnet mint. *)
Theorem live_requirement_ignores_configured_network :
  payaiNetwork Examples.config_live_mainnet = "solana"
  /\ exists (body : X402PaymentRequirements) (reqs : PaymentRequirements)
            (w' : World),
       x402Middleware Examples.config_live_mainnet
         Examples.facilitator_rejecting Examples.decode_sample (2 # 100)
         "req_1" (Examples.request_with (Some "e30=")) Examples.empty_world
       = (Ok (PaymentRequired body), w')
       /\ outbound w' = [CallVerify (JObj []) reqs]
       /\ pr_network reqs = JStr "solana-devnet"
       /\ pr_asset reqs = USDC_SOLANA_DEVNET
       /\ map acc_network (accepts body) = ["solana"]
       /\ map acc_asset (accepts body) = [USDC_SOLANA].
Proof.
  split; [reflexivity|].
  eexists. eexists. eexists. split; [lazy; reflexivity|].
  cbn [outbound]. split; [reflexivity|]. repeat split.
Qed.

End X402Facts.

(* ------------------------------------------------------------------ *)
(** ** Properties of the leaderboard query *)

Module TopFacts.

Import JS JSFacts Trust Api.

Lemma insertByScore_perm (x : RegistryEntry) (l : list RegistryEntry) :
  Permutation (insertByScore x l) (x :: l).
Proof.
  induction l as [|y rest IH]; cbn [insertByScore].
  - apply Permutation_refl.
  - destruct (gtb (score y) (score x)).
    + apply perm_trans with (y :: x :: rest).
      * now apply perm_skip.
      * apply perm_swap.
    + apply Permutation_refl.
Qed.

Lemma orderByScoreDesc_perm (l : list RegistryEntry) :
  Permutation (orderByScoreDesc l) l.
Proof.
  induction l as [|x rest IH]; cbn.
  - apply perm_nil.
  - apply perm_trans with (x :: orderByScoreDesc rest).
    + apply insertByScore_perm.
    + now apply perm_skip.
Qed.

Lemma firstn_In {A : Type} (n : nat) (l : list A) (a : A) :
  In a (firstn n l) -> In a l.
Proof.
  revert n. induction l as [|x rest IH]; intros n H.
  - now rewrite firstn_nil in H.
  - destruct n as [|n]; cbn [firstn] in H; [contradiction|].
    destruct H as [->|H]; [now left | right; eauto].
Qed.

Lemma limitSchema_in_range (n : Z) :
  (1 <= n <= 100)%Z -> limitSchema (Some (Num n)) = Some n.
Proof.
  intros [Hlo Hhi]. cbn [limitSchema].
  apply Z.leb_le in Hlo, Hhi. now rewrite Hlo, Hhi.
Qed.

End TopFacts.

(* ------------------------------------------------------------------ *)
(** ** Further properties of the decision hint *)

Module HintFacts.

Import JS JSFacts Trust TrustFacts.

Lemma ownProperty_In (key : string) (tbl : list (string * Thresholds))
  (t : Thresholds) :
  ownProperty key tbl = Some t -> In (key, t) tbl.
Proof.
  induction tbl as [|[k t'] rest IH]; cbn [ownProperty]; [discriminate|].
  destruct (String.eqb k key) eqn:E.
  - intro H. injection H as ->. apply String.eqb_eq in E. subst. now left.
  - intro H. right. now apply IH.
Qed.

(** In every entry of the table but the inverted one the three thresholds
    are ordered. *)
Lemma standard_thresholds_ordered (context : string) (t : Thresholds) :
  String.eqb context "rugger_check" = false ->
  ownProperty context thresholds = Some t ->
  t_review t <= t_limit t /\ t_limit t <= t_allow t.
Proof.
  intros Hc Hown. apply ownProperty_In in Hown.
  cbn [thresholds In] in Hown.
  repeat destruct Hown as [Hown|Hown];
    try (injection Hown as <- <-); try contradiction;
    try (cbn in Hc; discriminate);
    cbn [t_review t_limit t_allow]; split; discriminate.
Qed.

(** What [selectThresholds] can be for a context other than the inverted
    one: an inherited member, or thresholds that are ordered. *)
Lemma selectThresholds_standard (context : string) :
  String.eqb context "rugger_check" = false ->
  selectThresholds context = Inherited
  \/ exists t : Thresholds,
       selectThresholds context = Own t
       /\ t_review t <= t_limit t /\ t_limit t <= t_allow t.
Proof.
  intro Hc. unfold selectThresholds, thresholds_get.
  destruct (ownProperty context thresholds) as [t|] eqn:Hown.
  - right. exists t. split; [reflexivity|].
    now apply (standard_thresholds_ordered context).
  - destruct (inheritedKey context); [now left|].
    right. eexists. split; [reflexivity|]. split; discriminate.
Qed.

(** X1: outside [rugger_check] a higher score never gets a lower tier. *)
Theorem getDecisionHint_monotone (context : string) (s1 s2 : Q) :
  String.eqb context "rugger_check" = false ->
  s1 <= s2 ->
  (Spec.tier (getDecisionHint s1 context)
   <= Spec.tier (getDecisionHint s2 context))%nat.
Proof.
  intros Hc Hle. unfold getDecisionHint. rewrite Hc.
  destruct (selectThresholds_standard context Hc) as [-> | (t & -> & Hrl & Hla)].
  - cbn. lia.
  - cbn [field geb_undef].
    destruct (geb s1 (t_allow t)) eqn:A1, (geb s2 (t_allow t)) eqn:A2,
             (geb s1 (t_limit t)) eqn:L1, (geb s2 (t_limit t)) eqn:L2,
             (geb s1 (t_review t)) eqn:R1, (geb s2 (t_review t)) eqn:R2;
      cbn [Spec.tier]; try lia; exfalso;
      repeat match goal with
             | H : geb _ _ = true |- _ => apply geb_true in H
             | H : geb _ _ = false |- _ =>
                 apply not_true_iff_false in H; rewrite geb_true in H
             end;
      try (apply A2; lra); try (apply L2; lra); try (apply R2; lra).
Qed.

Lemma getDecisionHint_monotone_witness :
  (Spec.tier (getDecisionHint (35 # 100) "copy_trading")
   <= Spec.tier (getDecisionHint (75 # 100) "copy_trading"))%nat.
Proof.
  apply (getDecisionHint_monotone "copy_trading" (35 # 100) (75 # 100)).
  - reflexivity.
  - discriminate.
Defined.

(** X2: in [rugger_check] a higher score never gets a more permissive
    hint, and the hint is never [allow_with_limit]. *)
Theorem getDecisionHint_rugger_antitone (s1 s2 : Q) :
  s1 <= s2 ->
  (Spec.tier (getDecisionHint s2 "rugger_check")
   <= Spec.tier (getDecisionHint s1 "rugger_check"))%nat
  /\ getDecisionHint s1 "rugger_check" <> allow_with_limit.
Proof.
  intro Hle. unfold getDecisionHint.
  change (String.eqb "rugger_check" "rugger_check") with true.
  change (selectThresholds "rugger_check") with (Own (mkThresholds 0 0 (3 # 10))).
  cbn [field geb_undef t_review].
  destruct (geb s1 (3 # 10)) eqn:R1, (geb s2 (3 # 10)) eqn:R2,
           (gtb s1 0) eqn:G1, (gtb s2 0) eqn:G2;
    cbn [Spec.tier]; (split; [|discriminate]); try lia; exfalso;
    repeat match goal with
           | H : geb _ _ = true |- _ => apply geb_true in H
           | H : geb _ _ = false |- _ =>
               apply not_true_iff_false in H; rewrite geb_true in H
           | H : gtb _ _ = true |- _ => apply gtb_true in H
           | H : gtb _ _ = false |- _ => apply gtb_false in H
           end;
    try (apply R2; lra); lra.
Qed.

Lemma getDecisionHint_rugger_antitone_witness :
  (Spec.tier (getDecisionHint (4 # 10) "rugger_check")
   <= Spec.tier (getDecisionHint (1 # 10) "rugger_check"))%nat.
Proof.
  apply (getDecisionHint_rugger_antitone (1 # 10) (4 # 10)). discriminate.
Defined.

End HintFacts.

(* ------------------------------------------------------------------ *)
(** ** Grouping by context, and the entity route *)

Module GroupFacts.

Import JS JSFacts Trust TrustFacts.

Lemma existsb_eqb_In (v : string) (l : list string) :
  existsb (String.eqb v) l = true <-> In v l.
Proof.
  rewrite existsb_exists. split.
  - intros (w & Hin & Heq). apply String.eqb_eq in Heq. now subst.
  - intro Hin. exists v. split; [exact Hin | apply String.eqb_refl].
Qed.

Lemma setAdd_In (seen : list string) (w v : string) :
  In v (Ingestion.setAdd seen w) <-> In v seen \/ v = w.
Proof.
  unfold Ingestion.setAdd.
  destruct (existsb (String.eqb w) seen) eqn:E.
  - apply existsb_eqb_In in E. split; [intro; now left|].
    intros [H | ->]; assumption.
  - rewrite in_app_iff. cbn [In]. split.
    + intros [H | [H | []]]; [now left | now right].
    + intros [H | ->]; [now left | right; now left].
Qed.

Lemma setAdd_NoDup (seen : list string) (w : string) :
  NoDup seen -> NoDup (Ingestion.setAdd seen w).
Proof.
  intro Hnd. unfold Ingestion.setAdd.
  destruct (existsb (String.eqb w) seen) eqn:E; [exact Hnd|].
  apply NoDup_app; [exact Hnd | repeat constructor; intros [] |].
  intros v Hv [<- | []].
  apply existsb_eqb_In in Hv. congruence.
Qed.

Lemma arrayFromSet_snoc (l : list string) (v : string) :
  Ingestion.arrayFromSet (l ++ [v])
  = Ingestion.setAdd (Ingestion.arrayFromSet l) v.
Proof.
  unfold Ingestion.arrayFromSet. now rewrite fold_left_app.
Qed.

Lemma arrayFromSet_In (l : list string) (v : string) :
  In v (Ingestion.arrayFromSet l) <-> In v l.
Proof.
  induction l as [|w l IH] using rev_ind.
  - reflexivity.
  - rewrite arrayFromSet_snoc, setAdd_In, IH, in_app_iff. cbn [In].
    intuition congruence.
Qed.

Lemma arrayFromSet_NoDup (l : list string) :
  NoDup (Ingestion.arrayFromSet l).
Proof.
  induction l as [|w l IH] using rev_ind.
  - constructor.
  - rewrite arrayFromSet_snoc. now apply setAdd_NoDup.
Qed.

Lemma group_snoc (k : string) (l : list RegistryEntry) (x : RegistryEntry) :
  filter (fun r => String.eqb (registry_context (registry r)) k) (l ++ [x])
  = (filter (fun r => String.eqb (registry_context (registry r)) k) l
     ++ if String.eqb (registry_context (registry x)) k then [x] else [])%list.
Proof.
  rewrite filter_app. cbn [filter].
  now destruct (String.eqb (registry_context (registry x)) k).
Qed.

Lemma pushInto_present (ks : list string) (l : list RegistryEntry)
  (x : RegistryEntry) :
  NoDup ks ->
  In (registry_context (registry x)) ks ->
  pushInto
    (map (fun k => (k, filter (fun r =>
                         String.eqb (registry_context (registry r)) k) l)) ks)
    (registry_context (registry x)) x
  = map (fun k => (k, filter (fun r =>
                        String.eqb (registry_context (registry r)) k)
                        (l ++ [x]))) ks.
Proof.
  set (c := registry_context (registry x)).
  induction ks as [|k rest IH]; intros Hnd Hin; [contradiction|].
  inversion Hnd as [|k' rest' Hnotin Hrest]; subst.
  cbn [map pushInto]. rewrite group_snoc. fold c.
  destruct (String.eqb k c) eqn:E.
  - apply String.eqb_eq in E. subst k. rewrite String.eqb_refl.
    f_equal. apply map_ext_in. intros k Hk. rewrite group_snoc. fold c.
    destruct (String.eqb c k) eqn:E'.
    + apply String.eqb_eq in E'. subst k. contradiction.
    + now rewrite app_nil_r.
  - assert (E' : String.eqb c k = false) by (now rewrite String.eqb_sym).
    rewrite E', app_nil_r. f_equal. apply IH; [exact Hrest|].
    destruct Hin as [-> | Hin]; [|exact Hin].
    rewrite String.eqb_refl in E. discriminate.
Qed.

Lemma pushInto_absent (ks : list string) (l : list RegistryEntry)
  (x : RegistryEntry) :
  ~ In (registry_context (registry x)) ks ->
  (forall r, In r l -> In (registry_context (registry r)) ks) ->
  pushInto
    (map (fun k => (k, filter (fun r =>
                         String.eqb (registry_context (registry r)) k) l)) ks)
    (registry_context (registry x)) x
  = map (fun k => (k, filter (fun r =>
                        String.eqb (registry_context (registry r)) k)
                        (l ++ [x]))) (ks ++ [registry_context (registry x)]).
Proof.
  set (c := registry_context (registry x)). intros Hnotin Hcover.
  assert (Hnone : filter (fun r => String.eqb (registry_context (registry r)) c) l
                  = []).
  { induction l as [|y l IHl]; [reflexivity|]. cbn [filter].
    destruct (String.eqb (registry_context (registry y)) c) eqn:E.
    - apply String.eqb_eq in E. exfalso. apply Hnotin. rewrite <- E.
      apply Hcover. now left.
    - apply IHl. intros r Hr. apply Hcover. now right. }
  rewrite map_app. cbn [map]. rewrite group_snoc, Hnone. fold c.
  rewrite String.eqb_refl. cbn [app].
  clear Hcover Hnone.
  induction ks as [|k rest IH]; [reflexivity|].
  cbn [map pushInto app]. rewrite group_snoc. fold c.
  assert (Hk : k <> c) by (intro; subst; apply Hnotin; now left).
  assert (E : String.eqb k c = false) by (now apply String.eqb_neq).
  assert (E' : String.eqb c k = false) by (now rewrite String.eqb_sym).
  rewrite E, E', app_nil_r. f_equal. apply IH.
  intro H. apply Hnotin. now right.
Qed.

(** The map built by the grouping loop, in closed form. *)
Lemma groupByContext_spec (entries : list RegistryEntry) :
  groupByContext entries
  = map (fun k => (k, filter (fun r =>
                        String.eqb (registry_context (registry r)) k) entries))
        (Ingestion.arrayFromSet
           (map (fun r => registry_context (registry r)) entries)).
Proof.
  induction entries as [|x l IH] using rev_ind; [reflexivity|].
  unfold groupByContext in *. rewrite fold_left_app. cbn [fold_left].
  rewrite IH, map_app. cbn [map]. rewrite arrayFromSet_snoc.
  unfold Ingestion.setAdd.
  destruct (existsb (String.eqb (registry_context (registry x)))
              (Ingestion.arrayFromSet
                 (map (fun r => registry_context (registry r)) l))) eqn:E.
  - apply pushInto_present; [apply arrayFromSet_NoDup|].
    now apply existsb_eqb_In.
  - apply pushInto_absent.
    + intro H. apply existsb_eqb_In in H. congruence.
    + intros r Hr. apply arrayFromSet_In.
      now apply (in_map (fun r => registry_context (registry r))).
Qed.

(** X7: [queryEntityTrust] groups the entries by context: there is one
    group per distinct context, in the order of the contexts' first
    entries, and the group of a context holds exactly the entries of that
    context, in the order the store yields them. *)
Theorem groupByContext_closed_form (entries : list RegistryEntry) :
  groupByContext entries
  = map (fun k => (k, filter (fun r =>
                        String.eqb (registry_context (registry r)) k) entries))
        (Ingestion.arrayFromSet
           (map (fun r => registry_context (registry r)) entries))
  /\ NoDup (map fst (groupByContext entries))
  /\ forall r : RegistryEntry,
       In r entries ->
       exists g : list RegistryEntry,
         In (registry_context (registry r), g) (groupByContext entries)
         /\ In r g.
Proof.
  split; [apply groupByContext_spec|]. rewrite groupByContext_spec. split.
  - rewrite map_map. cbn [fst]. rewrite map_id. apply arrayFromSet_NoDup.
  - intros r Hr.
    exists (filter (fun r' => String.eqb (registry_context (registry r'))
                                        (registry_context (registry r)))
                   entries).
    split.
    + apply (in_map (fun k => (k, filter (fun r' =>
                 String.eqb (registry_context (registry r')) k) entries))).
      apply arrayFromSet_In.
      now apply (in_map (fun r => registry_context (registry r))).
    + apply filter_In. split; [exact Hr | apply String.eqb_refl].
Qed.

Lemma groupByContext_nil (entries : list RegistryEntry) :
  groupByContext entries = [] <-> entries = [].
Proof.
  split; [|now intros ->].
  rewrite groupByContext_spec. intro H.
  apply map_eq_nil in H. destruct entries as [|x l]; [reflexivity|].
  assert (Hin : In (registry_context (registry x))
                   (Ingestion.arrayFromSet
                      (map (fun r => registry_context (registry r)) (x :: l))))
    by (apply arrayFromSet_In; now left).
  rewrite H in Hin. contradiction.
Qed.




(** X9: [GET /trust/entity/:address] answers 404 exactly when no entity
    with that address on [solana] has an entry (in the requested context,
    when a non-empty one is given); an entity that is known but has no
    entry is reported like an unknown one. *)
Theorem trustEntityHandler_404_iff (st : Store) (now address : string)
  (p : Routes.Param) (context : option string) :
  truthy_string address = true ->
  Routes.trustEntityQuerySchema p = Some context ->
  (Routes.trustEntityHandler st now address p = Routes.Entity404
   <-> forall e : Entity,
         In e (findManyEntities st address) ->
         entriesOf st e (whereContext context) = []).
Proof.
  intros Haddr Hctx. unfold Routes.trustEntityHandler,
    Routes.trustEntityParamsSchema. rewrite Haddr, Hctx.
  cbn zeta. unfold queryEntityTrust. cbn [ep_address ep_context].
  set (f := fun e => map (aggregateGroup e now)
                         (groupByContext (entriesOf st e (whereContext context)))).
  assert (Hnil : flat_map f (findManyEntities st address) = []
                 <-> forall e, In e (findManyEntities st address) ->
                               entriesOf st e (whereContext context) = []).
  { induction (findManyEntities st address) as [|e es IH]; cbn [flat_map].
    - split; [intros _ e [] | reflexivity].
    - split.
      + intros H e' [<- | Hin].
        * apply app_eq_nil in H. destruct H as [H _]. unfold f in H.
          apply map_eq_nil in H. now apply groupByContext_nil.
        * apply app_eq_nil in H. destruct H as [_ H]. now apply IH.
      + intro H. assert (He : f e = []).
        { unfold f. rewrite (H e (or_introl eq_refl)). reflexivity. }
        rewrite He. cbn [app]. apply IH. intros e' Hin. apply H. now right. }
  rewrite <- Hnil.
  destruct (flat_map f (findManyEntities st address)) as [|r rs].
  - cbn. split; reflexivity.
  - cbn. split; discriminate.
Qed.

Lemma trustEntityHandler_404_iff_witness :
  Routes.trustEntityHandler Examples.store_two Examples.now "W1"
    (Routes.Text "social_verification") = Routes.Entity404.
Proof.
  apply (trustEntityHandler_404_iff Examples.store_two Examples.now "W1"
           (Routes.Text "social_verification") (Some "social_verification")).
  - reflexivity.
  - reflexivity.
  - intros e He. vm_compute in He. destruct He as [<- | []]. reflexivity.
Defined.

End GroupFacts.

(* ------------------------------------------------------------------ *)
(** ** Further properties of the leaderboard route *)

Module TopRouteFacts.

Import JS JSFacts Trust Api TopFacts.



(** X11: for a limit in 1..100 the route answers 200 and [count] is the
    smaller of the limit and the number of entries that match the context
    and the slugs. *)
Theorem trustTopHandler_count (st : Store) (context : string) (n : Z)
  (registry_slugs : option string) :
  (1 <= n <= 100)%Z ->
  exists entities : list TopEntity,
    trustTopHandler st (mkTopQuery (Some context) (Some (Num n)) registry_slugs)
    = Top200 context n
        (Nat.min (Z.to_nat n)
           (List.length
              (filter (topWhere context
                         (option_map
                            (fun s => filter truthy_string (split_comma s))
                            registry_slugs))
                      (registryEntries st))))
        entities
    /\ List.length entities
       = Nat.min (Z.to_nat n)
           (List.length
              (filter (topWhere context
                         (option_map
                            (fun s => filter truthy_string (split_comma s))
                            registry_slugs))
                      (registryEntries st))).
Proof.
  intro Hn. unfold trustTopHandler, trustTopQuerySchema.
  cbn [q_context q_limit q_registry_slugs].
  rewrite (limitSchema_in_range n Hn).
  set (slugs := option_map (fun s => filter truthy_string (split_comma s))
                           registry_slugs).
  assert (Hlen : List.length (queryTopEntities st (mkTopParams context n slugs))
                 = Nat.min (Z.to_nat n)
                     (List.length (filter (topWhere context slugs)
                                          (registryEntries st)))).
  { unfold queryTopEntities, findManyTop, take.
    cbn [tp_context tp_limit tp_registrySlugs].
    assert (En : (n <? 0)%Z = false) by (apply Z.ltb_ge; lia).
    rewrite En, length_map, length_firstn.
    now rewrite (Permutation_length (orderByScoreDesc_perm _)). }
  eexists. split; [|exact Hlen]. now rewrite Hlen.
Qed.

Lemma trustTopHandler_count_witness :
  exists entities : list TopEntity,
    trustTopHandler Samples.store_mixed
      (mkTopQuery (Some "copy_trading") (Some (Num 2)) None)
    = Top200 "copy_trading" 2 2 entities.
Proof.
  destruct (trustTopHandler_count Samples.store_mixed "copy_trading" 2 None)
    as (entities & H & _).
  - lia.
  - exists entities. exact H.
Defined.

(** X13: a [registry_slugs] parameter that names no slug (it is empty or
    holds commas only) restricts nothing: the answer is the one given
    without the parameter. *)
Theorem trustTopHandler_empty_slugs (st : Store) (context : option string)
  (limit : option Coerced) (registry_slugs : string) :
  filter truthy_string (split_comma registry_slugs) = [] ->
  trustTopHandler st (mkTopQuery context limit (Some registry_slugs))
  = trustTopHandler st (mkTopQuery context limit None).
Proof.
  intro Hempty. unfold trustTopHandler, trustTopQuerySchema.
  cbn [q_context q_limit q_registry_slugs].
  destruct context as [c|]; [|reflexivity].
  destruct (limitSchema limit) as [n|]; [|reflexivity].
  cbn [option_map]. rewrite Hempty. reflexivity.
Qed.

Lemma trustTopHandler_empty_slugs_witness :
  trustTopHandler Samples.store_mixed
    (mkTopQuery (Some "copy_trading") None (Some ",,"))
  = trustTopHandler Samples.store_mixed
      (mkTopQuery (Some "copy_trading") None None).
Proof.
  apply (trustTopHandler_empty_slugs Samples.store_mixed (Some "copy_trading")
           None ",,").
  reflexivity.
Defined.

End TopRouteFacts.

(* ------------------------------------------------------------------ *)
(** ** Further properties of the payment gate *)

Module GateFacts.

Import JS X402 X402Facts.

Section Gate.

Variable config : Config.
Variable facilitator : Facilitator.
Variable decode : string -> option json.

(** The live branch as a decision table over the facilitator's answers;
    [reqs] is the one requirement record sent with both calls. *)
Lemma livePayment_table (priceUsd : Q) (requestId resourceUrl : string)
  (req : Request) (paymentPayload : json) (w : World) (isDevnet : bool) :
  includesMethod (declaredNetwork paymentPayload) "devnet" = Some isDevnet ->
  exists (reqs : PaymentRequirements) (body : X402PaymentRequirements),
    pr_maxAmountRequired reqs = usdToAtomicUnits priceUsd
    /\ pr_resource reqs = resourceUrl
    /\ pr_payTo reqs = payaiMerchantAddress config
    /\ fst (paymentRequired config priceUsd requestId resourceUrl req w)
       = Ok (PaymentRequired body)
    /\ livePayment config facilitator priceUsd requestId resourceUrl req
         paymentPayload w
       = match postVerify facilitator paymentPayload reqs with
         | Some vb =>
             if isTrue (vb_isValid vb) then
               match postSettle facilitator paymentPayload reqs with
               | Some sb =>
                   if isTrue (sb_success sb) then
                     (Ok (Next (mkContext requestId true (sb_transaction sb)
                                          (vb_payer vb))
                               (Some (mkSettlementResponse true
                                        (sb_transaction sb)
                                        (getProp paymentPayload "network")
                                        (vb_payer vb)))),
                      mkWorld (paymentLog w
                               ++ [mkLog requestId (path req) priceUsd
                                         "completed" (sb_transaction sb)])
                              (outbound w
                               ++ [CallVerify paymentPayload reqs;
                                   CallSettle paymentPayload reqs]))
                   else
                     (Ok (PaymentRequired body),
                      mkWorld (paymentLog w
                               ++ [mkLog requestId (path req) priceUsd
                                         "pending" None])
                              (outbound w
                               ++ [CallVerify paymentPayload reqs;
                                   CallSettle paymentPayload reqs]))
               | None =>
                   (Ok (PaymentRequired body),
                    mkWorld (paymentLog w
                             ++ [mkLog requestId (path req) priceUsd
                                       "pending" None])
                            (outbound w
                             ++ [CallVerify paymentPayload reqs;
                                 CallSettle paymentPayload reqs]))
               end
             else
               (Ok (PaymentRequired body),
                mkWorld (paymentLog w
                         ++ [mkLog requestId (path req) priceUsd "pending" None])
                        (outbound w ++ [CallVerify paymentPayload reqs]))
         | None =>
             (Ok (PaymentRequired body),
              mkWorld (paymentLog w
                       ++ [mkLog requestId (path req) priceUsd "pending" None])
                      (outbound w ++ [CallVerify paymentPayload reqs]))
         end.
Proof.
  intro Hinc. unfold livePayment, networkIsDevnet, bind. rewrite Hinc.
  cbn [ret].
  set (reqs := mkRequirements _ _ _ _ _ _ _ _ _).
  exists reqs. eexists.
  split; [reflexivity|]. split; [reflexivity|].
  split; [unfold reqs, orString; cbn [pr_payTo];
          now destruct (payaiMerchantAddress config)|].
  split; [reflexivity|].
  unfold verifyPayment, settlePayment, bind, send, ret.
  destruct (postVerify facilitator paymentPayload reqs) as [vb|];
    cbn [isValid paymentLog outbound]; [|reflexivity].
  destruct (isTrue (vb_isValid vb)); [|reflexivity].
  destruct (postSettle facilitator paymentPayload reqs) as [sb|];
    cbn [success paymentLog outbound].
  - destruct (isTrue (sb_success sb)); cbn; now rewrite <- app_assoc.
  - cbn. now rewrite <- app_assoc.
Qed.

Lemma livePayment_throw (priceUsd : Q) (requestId resourceUrl : string)
  (req : Request) (paymentPayload : json) (w : World) :
  includesMethod (declaredNetwork paymentPayload) "devnet" = None ->
  livePayment config facilitator priceUsd requestId resourceUrl req
    paymentPayload w = (TypeError, w).
Proof.
  intro Hinc. unfold livePayment, networkIsDevnet, bind. now rewrite Hinc.
Qed.

(** The live branch of the middleware, header by header. *)
Lemma x402Middleware_live (priceUsd : Q) (requestId : string) (req : Request)
  (w : World) :
  paymentsMode config = live ->
  x402Middleware config facilitator decode priceUsd requestId req w
  = match x_payment req with
    | Some header =>
        if truthy_string header && truthy (parsePaymentHeader decode header)
        then livePayment config facilitator priceUsd requestId
               (protocol req ++ "://" ++ host req ++ originalUrl req) req
               (parsePaymentHeader decode header) w
        else paymentRequired config priceUsd requestId
               (protocol req ++ "://" ++ host req ++ originalUrl req) req w
    | None => paymentRequired config priceUsd requestId
                (protocol req ++ "://" ++ host req ++ originalUrl req) req w
    end.
Proof.
  intro Hlive. unfold x402Middleware. rewrite Hlive.
  destruct (x_payment req) as [header|]; [|reflexivity].
  destruct (truthy_string header); [|reflexivity].
  now destruct (truthy (parsePaymentHeader decode header)).
Qed.

Lemma isTrue_true (b : option bool) : isTrue b = true -> b = Some true.
Proof. now destruct b as [[|]|]. Qed.

(** The mock branch of the middleware. *)
Lemma mock_mode_table (priceUsd : Q) (requestId : string) (req : Request)
  (w : World) :
  paymentsMode config = mock ->
  exists body : X402PaymentRequirements,
    x402Middleware config facilitator decode priceUsd requestId req w
    = if truthy_header (x_payment_proof req) || truthy_header (x_payment req)
      then
        let ref := if truthy_header (x_payment_proof req)
                   then x_payment_proof req else x_payment req in
        (Ok (Next (mkContext requestId true ref None) None),
         mkWorld (paymentLog w
                  ++ [mkLog requestId (path req) priceUsd "completed" ref])
                 (outbound w))
      else
        (Ok (PaymentRequired body),
         mkWorld (paymentLog w
                  ++ [mkLog requestId (path req) priceUsd "pending" None])
                 (outbound w)).
Proof.
  intro Hmock. unfold x402Middleware. rewrite Hmock.
  destruct (paymentRequired_run config priceUsd requestId
              (protocol req ++ "://" ++ host req ++ originalUrl req) req w)
    as (body & Hbody).
  exists body. unfold validateMockPayment, orHeader.
  destruct (truthy_header (x_payment_proof req)) eqn:Hp.
  - rewrite Hp. reflexivity.
  - cbn [orb]. destruct (truthy_header (x_payment req)) eqn:Hx.
    + reflexivity.
    + cbn [fst]. exact Hbody.
Qed.

(** X14: in mock mode the request is granted exactly when the proof header
    or the payment header is a non-empty string; the payment reference is
    the proof header when that is non-empty, else the payment header; the
    facilitator is not called and nothing is thrown. *)
Theorem mock_mode_run (priceUsd : Q) (requestId : string) (req : Request)
  (w : World) :
  paymentsMode config = mock ->
  exists body : X402PaymentRequirements,
    x402Middleware config facilitator decode priceUsd requestId req w
    = if truthy_header (x_payment_proof req) || truthy_header (x_payment req)
      then
        let ref := if truthy_header (x_payment_proof req)
                   then x_payment_proof req else x_payment req in
        (Ok (Next (mkContext requestId true ref None) None),
         mkWorld (paymentLog w
                  ++ [mkLog requestId (path req) priceUsd "completed" ref])
                 (outbound w))
      else
        (Ok (PaymentRequired body),
         mkWorld (paymentLog w
                  ++ [mkLog requestId (path req) priceUsd "pending" None])
                 (outbound w)).
Proof.
  exact (mock_mode_table priceUsd requestId req w).
Qed.

(** X15: in live mode a request is let through only after both
    facilitator calls have succeeded: [verify] answered [isValid: true],
    then [settle], called with the same payload and requirement record,
    answered [success: true]. The ledger row and the payment context carry
    the settlement's transaction, the context the verified payer. *)
Theorem live_grant_is_settled (priceUsd : Q) (requestId : string)
  (req : Request) (w w' : World) (ctx : PaymentContext)
  (hdr : option SettlementResponse) :
  paymentsMode config = live ->
  x402Middleware config facilitator decode priceUsd requestId req w
  = (Ok (Next ctx hdr), w') ->
  exists (header : string) (reqs : PaymentRequirements) (vb : VerifyBody)
         (sb : SettleBody),
    x_payment req = Some header
    /\ postVerify facilitator (parsePaymentHeader decode header) reqs = Some vb
    /\ vb_isValid vb = Some true
    /\ postSettle facilitator (parsePaymentHeader decode header) reqs = Some sb
    /\ sb_success sb = Some true
    /\ pr_maxAmountRequired reqs = usdToAtomicUnits priceUsd
    /\ pr_payTo reqs = payaiMerchantAddress config
    /\ outbound w'
       = (outbound w
          ++ [CallVerify (parsePaymentHeader decode header) reqs;
              CallSettle (parsePaymentHeader decode header) reqs])%list
    /\ paymentLog w'
       = (paymentLog w
          ++ [mkLog requestId (path req) priceUsd "completed"
                    (sb_transaction sb)])%list
    /\ ctx = mkContext requestId true (sb_transaction sb) (vb_payer vb).
Proof.
  intros Hlive Hrun. rewrite (x402Middleware_live _ _ _ _ Hlive) in Hrun.
  set (url := protocol req ++ "://" ++ host req ++ originalUrl req) in *.
  destruct (paymentRequired_run config priceUsd requestId url req w)
    as (body & Hbody).
  destruct (x_payment req) as [header|]; [|rewrite Hbody in Hrun; discriminate].
  destruct (truthy_string header && truthy (parsePaymentHeader decode header));
    [|rewrite Hbody in Hrun; discriminate].
  exists header.
  destruct (includesMethod (declaredNetwork (parsePaymentHeader decode header))
              "devnet") as [isDevnet|] eqn:Hinc.
  - destruct (livePayment_table priceUsd requestId url req
                (parsePaymentHeader decode header) w isDevnet Hinc)
      as (reqs & body' & Hamount & _ & HpayTo & _ & Htable).
    rewrite Htable in Hrun. exists reqs.
    destruct (postVerify facilitator (parsePaymentHeader decode header) reqs)
      as [vb|]; [|discriminate].
    destruct (isTrue (vb_isValid vb)) eqn:Hvalid; [|discriminate].
    destruct (postSettle facilitator (parsePaymentHeader decode header) reqs)
      as [sb|]; [|discriminate].
    destruct (isTrue (sb_success sb)) eqn:Hsuccess; [|discriminate].
    injection Hrun as <- <- <-. exists vb, sb.
    apply isTrue_true in Hvalid, Hsuccess. repeat split; assumption.
  - rewrite (livePayment_throw _ _ _ _ _ _ Hinc) in Hrun. discriminate.
Qed.

(** X16: whatever the mode and the request, the requests one run sends to
    the facilitator are, in this order: none; or one [verify]; or one
    [verify] followed by one [settle] for the same payload and requirement
    record. The [settle] is sent exactly when the [verify] just before it
    answered [isValid: true]. *)
Theorem settle_only_after_valid_verify (priceUsd : Q) (requestId : string)
  (req : Request) (w : World) :
  exists calls : list FacilitatorCall,
    outbound (snd (x402Middleware config facilitator decode priceUsd
                     requestId req w))
    = (outbound w ++ calls)%list
    /\ (calls = []
        \/ (exists (p : json) (reqs : PaymentRequirements),
               calls = [CallVerify p reqs]
               /\ forall vb : VerifyBody,
                    postVerify facilitator p reqs = Some vb ->
                    vb_isValid vb <> Some true)
        \/ (exists (p : json) (reqs : PaymentRequirements) (vb : VerifyBody),
               calls = [CallVerify p reqs; CallSettle p reqs]
               /\ postVerify facilitator p reqs = Some vb
               /\ vb_isValid vb = Some true)).
Proof.
  set (url := protocol req ++ "://" ++ host req ++ originalUrl req).
  destruct (paymentRequired_run config priceUsd requestId url req w)
    as (body & Hbody).
  assert (Hnone : forall r : Result Outcome * World,
             outbound (snd r) = outbound w ->
             exists calls : list FacilitatorCall,
               outbound (snd r) = (outbound w ++ calls)%list
               /\ (calls = []
                   \/ (exists (p : json) (reqs : PaymentRequirements),
                          calls = [CallVerify p reqs]
                          /\ forall vb : VerifyBody,
                               postVerify facilitator p reqs = Some vb ->
                               vb_isValid vb <> Some true)
                   \/ (exists (p : json) (reqs : PaymentRequirements)
                              (vb : VerifyBody),
                          calls = [CallVerify p reqs; CallSettle p reqs]
                          /\ postVerify facilitator p reqs = Some vb
                          /\ vb_isValid vb = Some true))).
  { intros r Hr. exists []. rewrite Hr, app_nil_r.
    split; [reflexivity | now left]. }
  destruct (paymentsMode config) eqn:Hmode.
  - destruct (mock_mode_table priceUsd requestId req w Hmode) as (b & Hb).
    rewrite Hb. apply Hnone.
    now destruct (truthy_header (x_payment_proof req)
                  || truthy_header (x_payment req)).
  - rewrite (x402Middleware_live _ _ _ _ Hmode). fold url.
    destruct (x_payment req) as [header|];
      [|apply Hnone; now rewrite Hbody].
    destruct (truthy_string header && truthy (parsePaymentHeader decode header));
      [|apply Hnone; now rewrite Hbody].
    set (payload := parsePaymentHeader decode header).
    destruct (includesMethod (declaredNetwork payload) "devnet")
      as [isDevnet|] eqn:Hinc.
    + destruct (livePayment_table priceUsd requestId url req payload w
                  isDevnet Hinc) as (reqs & body' & _ & _ & _ & _ & Htable).
      rewrite Htable.
      destruct (postVerify facilitator payload reqs) as [vb|] eqn:Hv.
      * destruct (isTrue (vb_isValid vb)) eqn:Hvalid.
        -- exists [CallVerify payload reqs; CallSettle payload reqs].
           split.
           ++ destruct (postSettle facilitator payload reqs) as [sb|];
                [destruct (isTrue (sb_success sb))|]; reflexivity.
           ++ right. right. exists payload, reqs, vb.
              split; [reflexivity|]. split; [exact Hv|].
              now apply isTrue_true.
        -- exists [CallVerify payload reqs]. split; [reflexivity|].
           right. left. exists payload, reqs. split; [reflexivity|].
           intros vb' Hvb' Htrue. rewrite Hv in Hvb'.
           injection Hvb' as <-. rewrite Htrue in Hvalid. discriminate.
      * exists [CallVerify payload reqs]. split; [reflexivity|].
        right. left. exists payload, reqs. split; [reflexivity|].
        intros vb Hvb. rewrite Hv in Hvb. discriminate.
    + rewrite (livePayment_throw _ _ _ _ _ _ Hinc). now apply Hnone.
Qed.

(** X17: a facilitator that cannot be reached counts as a refusal: when
    the [verify] request fails, the run ends in the 402 response with one
    [pending] row, after that one request and without a [settle]. *)
Theorem unreachable_facilitator_is_denied (priceUsd : Q) (requestId : string)
  (req : Request) (w : World) (header : string) (isDevnet : bool) :
  paymentsMode config = live ->
  x_payment req = Some header ->
  truthy_string header = true ->
  truthy (parsePaymentHeader decode header) = true ->
  includesMethod (declaredNetwork (parsePaymentHeader decode header)) "devnet"
  = Some isDevnet ->
  (forall reqs : PaymentRequirements,
      postVerify facilitator (parsePaymentHeader decode header) reqs = None) ->
  exists (body : X402PaymentRequirements) (reqs : PaymentRequirements),
    x402Middleware config facilitator decode priceUsd requestId req w
    = (Ok (PaymentRequired body),
       mkWorld (paymentLog w
                ++ [mkLog requestId (path req) priceUsd "pending" None])
               (outbound w
                ++ [CallVerify (parsePaymentHeader decode header) reqs])).
Proof.
  intros Hlive Hheader Hh Hp Hinc Hdown.
  rewrite (x402Middleware_live _ _ _ _ Hlive), Hheader, Hh, Hp. cbn [andb].
  destruct (livePayment_table priceUsd requestId
              (protocol req ++ "://" ++ host req ++ originalUrl req) req
              (parsePaymentHeader decode header) w isDevnet Hinc)
    as (reqs & body & _ & _ & _ & _ & Htable).
  exists body, reqs. rewrite Htable, (Hdown reqs). reflexivity.
Qed.

(** X18: the middleware ends in the exception exactly in live mode, for a
    non-empty header whose decoded payload is truthy and declares a truthy
    [network] that is neither a string nor an array. *)
Theorem x402Middleware_throws_iff (priceUsd : Q) (requestId : string)
  (req : Request) (w : World) :
  fst (x402Middleware config facilitator decode priceUsd requestId req w)
  = TypeError
  <-> paymentsMode config = live
      /\ exists header : string,
           x_payment req = Some header
           /\ truthy_string header = true
           /\ truthy (parsePaymentHeader decode header) = true
           /\ includesMethod
                (declaredNetwork (parsePaymentHeader decode header)) "devnet"
              = None.
Proof.
  set (url := protocol req ++ "://" ++ host req ++ originalUrl req).
  destruct (paymentRequired_run config priceUsd requestId url req w)
    as (body & Hbody).
  destruct (paymentsMode config) eqn:Hmode.
  - destruct (mock_mode_table priceUsd requestId req w Hmode) as (b & Hb).
    rewrite Hb. split; [|intros [H _]; discriminate].
    now destruct (truthy_header (x_payment_proof req)
                  || truthy_header (x_payment req)).
  - rewrite (x402Middleware_live _ _ _ _ Hmode). fold url.
    destruct (x_payment req) as [header|].
    + destruct (truthy_string header) eqn:Hh; cbn [andb].
      * destruct (truthy (parsePaymentHeader decode header)) eqn:Hp.
        -- destruct (includesMethod
                       (declaredNetwork (parsePaymentHeader decode header))
                       "devnet") as [isDevnet|] eqn:Hinc.
           ++ destruct (livePayment_table priceUsd requestId url req
                          (parsePaymentHeader decode header) w isDevnet Hinc)
                as (reqs & body' & _ & _ & _ & _ & Htable).
              rewrite Htable. split.
              ** destruct (postVerify facilitator _ reqs) as [vb|];
                   [|discriminate].
                 destruct (isTrue (vb_isValid vb)); [|discriminate].
                 destruct (postSettle facilitator _ reqs) as [sb|];
                   [|discriminate].
                 destruct (isTrue (sb_success sb)); discriminate.
              ** intros (_ & h & Hsome & _ & _ & Hnone).
                 injection Hsome as <-. congruence.
           ++ rewrite (livePayment_throw _ _ _ _ _ _ Hinc).
              split; [|reflexivity]. intros _. split; [reflexivity|].
              exists header. repeat split; assumption.
        -- rewrite Hbody. split; [discriminate|].
           intros (_ & h & Hsome & _ & Htr & _). injection Hsome as <-.
           congruence.
      * rewrite Hbody. split; [discriminate|].
        intros (_ & h & Hsome & Htr & _). injection Hsome as <-. congruence.
    + rewrite Hbody. split; [discriminate|].
      intros (_ & h & Hsome & _). discriminate.
Qed.

(** X19: in live mode the proof-token header plays no part: two requests
    that differ in [X-Payment-Proof] only are treated alike. *)
Theorem live_ignores_proof_header (priceUsd : Q) (requestId : string)
  (req : Request) (proof : option string) (w : World) :
  paymentsMode config = live ->
  x402Middleware config facilitator decode priceUsd requestId
    (mkRequest (protocol req) (host req) (originalUrl req) (path req)
               (x_payment req) proof) w
  = x402Middleware config facilitator decode priceUsd requestId req w.
Proof.
  intro Hlive. unfold x402Middleware. rewrite Hlive.
  destruct req as [pr h u p xp pf]. reflexivity.
Qed.

End Gate.

Lemma mock_mode_run_witness :
  x402Middleware Samples.config_mock Examples.facilitator_rejecting
    Examples.decode_sample (5 # 100) "req_1"
    (Samples.request_proof (Some "demo-payment-proof") None)
    Examples.empty_world
  = (Ok (Next (mkContext "req_1" true (Some "demo-payment-proof") None) None),
     mkWorld [mkLog "req_1" "/trust/top" (5 # 100) "completed"
                    (Some "demo-payment-proof")] []).
Proof.
  destruct (mock_mode_run Samples.config_mock Examples.facilitator_rejecting
              Examples.decode_sample (5 # 100) "req_1"
              (Samples.request_proof (Some "demo-payment-proof") None)
              Examples.empty_world) as (body & H).
  - reflexivity.
  - exact H.
Defined.

Lemma live_grant_is_settled_witness :
  exists (reqs : PaymentRequirements) (w' : World),
    outbound w'
    = [CallVerify (JObj [("network", JStr "solana-devnet")]) reqs;
       CallSettle (JObj [("network", JStr "solana-devnet")]) reqs]
    /\ pr_maxAmountRequired reqs = "20000".
Proof.
  destruct (live_grant_is_settled Examples.config_live_mainnet
              Examples.facilitator_accepting Examples.decode_sample (2 # 100)
              "req_1"
              (Examples.request_with (Some "eyJuZXR3b3JrIjoic29sYW5hLWRldm5ldCJ9"))
              Examples.empty_world
              (snd (x402Middleware Examples.config_live_mainnet
                      Examples.facilitator_accepting Examples.decode_sample
                      (2 # 100) "req_1"
                      (Examples.request_with
                         (Some "eyJuZXR3b3JrIjoic29sYW5hLWRldm5ldCJ9"))
                      Examples.empty_world))
              (mkContext "req_1" true (Some "tx_1") (Some "payer_1"))
              (Some (mkSettlementResponse true (Some "tx_1")
                       (Some (JStr "solana-devnet")) (Some "payer_1"))))
    as (header & reqs & vb & sb & Hh & _ & _ & _ & _ & Hamount & _ & Hout & _).
  - reflexivity.
  - reflexivity.
  - injection Hh as <-. exists reqs. eexists. split; [exact Hout|].
    rewrite Hamount. reflexivity.
Defined.

Lemma unreachable_facilitator_is_denied_witness :
  exists (body : X402PaymentRequirements) (reqs : PaymentRequirements),
    x402Middleware Examples.config_live_mainnet Samples.facilitator_down
      Examples.decode_sample (2 # 100) "req_1"
      (Examples.request_with (Some "e30=")) Examples.empty_world
    = (Ok (PaymentRequired body),
       mkWorld [mkLog "req_1" "/trust/query" (2 # 100) "pending" None]
               [CallVerify (JObj []) reqs]).
Proof.
  apply (unreachable_facilitator_is_denied Examples.config_live_mainnet
           Samples.facilitator_down Examples.decode_sample (2 # 100) "req_1"
           (Examples.request_with (Some "e30=")) Examples.empty_world
           "e30=" true); try reflexivity.
Defined.

Lemma live_ignores_proof_header_witness :
  x402Middleware Examples.config_live_mainnet Examples.facilitator_accepting
    Examples.decode_sample (2 # 100) "req_1"
    (mkRequest "https" "acr.example" "/v1/trust/query" "/trust/query" None
               (Some "demo-payment-proof"))
    Examples.empty_world
  = x402Middleware Examples.config_live_mainnet Examples.facilitator_accepting
      Examples.decode_sample (2 # 100) "req_1" (Examples.request_with None)
      Examples.empty_world.
Proof.
  apply (live_ignores_proof_header Examples.config_live_mainnet
           Examples.facilitator_accepting Examples.decode_sample (2 # 100)
           "req_1" (Examples.request_with None) (Some "demo-payment-proof")
           Examples.empty_world).
  reflexivity.
Defined.

(** X20: the 402 body depends on the configuration, the price and the
    request's URL and path only: whatever the payment headers, the
    facilitator's answers and the request identifier, two denied runs for
    the same resource carry the same body. *)
Theorem challenge_independent_of_attempt (config : Config)
  (f1 f2 : Facilitator) (d1 d2 : string -> option json) (priceUsd : Q)
  (id1 id2 : string) (req1 req2 : Request) (w1 w2 w1' w2' : World)
  (b1 b2 : X402PaymentRequirements) :
  protocol req1 = protocol req2 ->
  host req1 = host req2 ->
  originalUrl req1 = originalUrl req2 ->
  path req1 = path req2 ->
  x402Middleware config f1 d1 priceUsd id1 req1 w1 = (Ok (PaymentRequired b1), w1') ->
  x402Middleware config f2 d2 priceUsd id2 req2 w2 = (Ok (PaymentRequired b2), w2') ->
  b1 = b2.
Proof.
  intros Hpr Hh Hu Hp H1 H2.
  assert (F : forall (rid : string) (req : Request) (w : World),
             fst (paymentRequired config priceUsd rid
                    (protocol req ++ "://" ++ host req ++ originalUrl req)
                    req w)
             = fst (paymentRequired config priceUsd ""
                      (protocol req ++ "://" ++ host req ++ originalUrl req)
                      req Examples.empty_world))
    by reflexivity.
  assert (G : forall (f : Facilitator) (d : string -> option json)
                     (rid : string) (req : Request) (w w' : World)
                     (b : X402PaymentRequirements),
             x402Middleware config f d priceUsd rid req w
             = (Ok (PaymentRequired b), w') ->
             fst (paymentRequired config priceUsd ""
                    (protocol req ++ "://" ++ host req ++ originalUrl req)
                    req Examples.empty_world)
             = Ok (PaymentRequired b)).
  { intros f d rid req w w' b Hrun. rewrite <- (F rid req w).
    destruct (paymentsMode config) eqn:Hmode.
    - unfold x402Middleware in Hrun. rewrite Hmode in Hrun.
      destruct (fst (validateMockPayment req)); [discriminate|].
      now rewrite Hrun.
    - rewrite (x402Middleware_live config f d _ _ _ _ Hmode) in Hrun.
      destruct (x_payment req) as [header|]; [|now rewrite Hrun].
      destruct (truthy_string header && truthy (parsePaymentHeader d header));
        [|now rewrite Hrun].
      destruct (includesMethod (declaredNetwork (parsePaymentHeader d header))
                  "devnet") as [isDevnet|] eqn:Hinc.
      + destruct (livePayment_table config f priceUsd rid
                    (protocol req ++ "://" ++ host req ++ originalUrl req) req
                    (parsePaymentHeader d header) w isDevnet Hinc)
          as (reqs & body & _ & _ & _ & Hbody & Htable).
        rewrite Hbody. rewrite Htable in Hrun.
        destruct (postVerify f _ reqs) as [vb|];
          [|now injection Hrun as <- _].
        destruct (isTrue (vb_isValid vb)); [|now injection Hrun as <- _].
        destruct (postSettle f _ reqs) as [sb|];
          [|now injection Hrun as <- _].
        destruct (isTrue (sb_success sb)); [discriminate|].
        now injection Hrun as <- _.
      + rewrite (livePayment_throw config f _ _ _ _ _ _ Hinc) in Hrun.
        discriminate. }
  apply G in H1. apply G in H2.
  unfold paymentRequired, bind, paymentLog_create, ret in H1, H2.
  cbn [fst] in H1, H2. rewrite Hpr, Hh, Hu, Hp in H1. rewrite H1 in H2.
  now injection H2.
Qed.

Lemma challenge_independent_of_attempt_witness :
  exists b1 b2 : X402PaymentRequirements,
    fst (x402Middleware Examples.config_live_mainnet
           Examples.facilitator_accepting Examples.decode_sample (2 # 100)
           "req_1" (Examples.request_with None) Examples.empty_world)
    = Ok (PaymentRequired b1)
    /\ fst (x402Middleware Examples.config_live_mainnet
              Examples.facilitator_rejecting Examples.decode_sample (2 # 100)
              "req_2"
              (Examples.request_with
                 (Some "eyJuZXR3b3JrIjoic29sYW5hLWRldm5ldCJ9"))
              Examples.empty_world)
       = Ok (PaymentRequired b2)
    /\ b1 = b2.
Proof.
  eexists. eexists. split; [lazy; reflexivity|]. split; [lazy; reflexivity|].
  eapply (challenge_independent_of_attempt Examples.config_live_mainnet
            Examples.facilitator_accepting Examples.facilitator_rejecting
            Examples.decode_sample Examples.decode_sample (2 # 100)
            "req_1" "req_2" (Examples.request_with None)
            (Examples.request_with
               (Some "eyJuZXR3b3JrIjoic29sYW5hLWRldm5ldCJ9"))
            Examples.empty_world Examples.empty_world);
    try reflexivity; lazy; reflexivity.
Defined.

End GateFacts.

(* ------------------------------------------------------------------ *)
(** ** The earlier middleware, the registry configuration, the query route *)

Module PeripheryFacts.

Import JS Trust.

(** X22: the earlier middleware writes exactly one row for every request:
    [completed], with the accepted proof as reference, when it lets the
    request through, [pending] when it answers 402 (the body then names
    the request and the price). In live mode it lets a request through
    exactly when [X-Payment-Proof] is a non-empty string, whatever
    [X-Payment-Token] holds. *)
Theorem legacy_gate (config : X402Legacy.Config) (priceUsd : Q)
  (requestId : string) (req : X402Legacy.Request)
  (ledger : list X402.PaymentLog) :
  (exists row : X402.PaymentLog,
      snd (X402Legacy.x402Middleware config priceUsd requestId req ledger)
      = (ledger ++ [row])%list
      /\ X402.log_requestId row = requestId
      /\ match fst (X402Legacy.x402Middleware config priceUsd requestId req
                      ledger) with
         | X402Legacy.Next ctx =>
             X402.log_status row = "completed"
             /\ X402Legacy.paid ctx = true
             /\ X402.log_paymentRef row = X402Legacy.paymentRef ctx
             /\ truthy_header (X402Legacy.paymentRef ctx) = true
         | X402Legacy.PaymentRequired body =>
             X402.log_status row = "pending"
             /\ X402.log_paymentRef row = None
             /\ X402Legacy.request_id body = requestId
             /\ X402Legacy.price_usd body = priceUsd
         end)
  /\ (X402Legacy.paymentsMode config = X402.live ->
      ((exists ctx : X402Legacy.PaymentContext,
           fst (X402Legacy.x402Middleware config priceUsd requestId req ledger)
           = X402Legacy.Next ctx)
       <-> truthy_header (X402Legacy.x_payment_proof req) = true)).
Proof.
  unfold X402Legacy.x402Middleware, X402Legacy.validateMockPayment,
    X402Legacy.validateLivePayment, X402.orHeader.
  split.
  - destruct (X402Legacy.paymentsMode config).
    + destruct (truthy_header (X402Legacy.x_payment_proof req)) eqn:Hp.
      * rewrite Hp. cbn. eexists. repeat split; assumption.
      * destruct (truthy_header (X402Legacy.x_payment_token req)) eqn:Ht;
          cbn; eexists; repeat split; assumption.
    + destruct (truthy_header (X402Legacy.x_payment_proof req)) eqn:Hp;
        cbn; eexists; repeat split; assumption.
  - intros ->.
    destruct (truthy_header (X402Legacy.x_payment_proof req)); cbn.
    + split; [reflexivity|]. intros _. eexists. reflexivity.
    + split; [intros (ctx & H); discriminate | discriminate].
Qed.

Lemma legacy_gate_witness :
  exists ctx : X402Legacy.PaymentContext,
    fst (X402Legacy.x402Middleware Samples.legacy_live (2 # 100) "req_1"
           (X402Legacy.mkRequest "/trust/query" (Some "any-token") None) [])
    = X402Legacy.Next ctx.
Proof.
  destruct (legacy_gate Samples.legacy_live (2 # 100) "req_1"
              (X402Legacy.mkRequest "/trust/query" (Some "any-token") None) [])
    as [_ H].
  apply H; reflexivity.
Defined.

(** X23: [getContexts] lists every context once, and a context is listed
    exactly when [getRegistriesByContext] finds a registry for it; this
    holds for any list of registry configurations. *)
Theorem contexts_cover_registries (configs : list Ingestion.RegistryConfig) :
  NoDup (Ingestion.contextsOf configs)
  /\ forall c : string,
       In c (Ingestion.contextsOf configs)
       <-> Ingestion.registriesByContextOf configs c <> [].
Proof.
  unfold Ingestion.contextsOf, Ingestion.registriesByContextOf.
  split; [apply GroupFacts.arrayFromSet_NoDup|].
  intro c. rewrite GroupFacts.arrayFromSet_In, in_map_iff. split.
  - intros (r & Hc & Hin) Hnil.
    assert (H : In r (filter (fun r => String.eqb (Ingestion.context r) c)
                             configs)).
    { apply filter_In. split; [exact Hin|]. rewrite Hc. apply String.eqb_refl. }
    rewrite Hnil in H. contradiction.
  - intro Hne.
    destruct (filter (fun r => String.eqb (Ingestion.context r) c) configs)
      as [|r rs] eqn:E; [congruence|].
    assert (H : In r (filter (fun r => String.eqb (Ingestion.context r) c)
                             configs)) by (rewrite E; now left).
    apply filter_In in H. destruct H as [Hin Hc].
    apply String.eqb_eq in Hc. now exists r.
Qed.

(** X24: for every context of the shipped registry configuration the
    thresholds that [getDecisionHint] selects are an entry of its table or
    the defaults, never an inherited member; so, outside [rugger_check], a
    score that reaches the selected [allow] threshold is allowed, and in
    particular every score of at least 0.7. *)
Theorem ingested_contexts_have_thresholds (c : string) :
  In c Ingestion.getContexts ->
  exists t : Thresholds,
    selectThresholds c = Own t
    /\ (ownProperty c thresholds = Some t
        \/ (ownProperty c thresholds = None
            /\ ownProperty "default" thresholds = Some t))
    /\ (c <> "rugger_check" ->
        forall score : Q,
          (t_allow t <= score -> getDecisionHint score c = allow)
          /\ (7 # 10 <= score -> getDecisionHint score c = allow)).
Proof.
  intro Hin.
  change Ingestion.getContexts
    with ["copy_trading"; "bot_detection"; "rugger_check";
          "social_verification"; "token_analysis"] in Hin.
  cbn [In] in Hin.
  assert (G : forall (t : Thresholds) (score : Q),
             selectThresholds c = Own t ->
             String.eqb c "rugger_check" = false ->
             t_allow t <= score -> getDecisionHint score c = allow).
  { intros t score Ht Hc Hle. unfold getDecisionHint. rewrite Ht, Hc.
    cbn [field geb_undef]. apply JSFacts.geb_true in Hle. now rewrite Hle. }
  repeat destruct Hin as [<- | Hin]; try contradiction;
    (eexists; split; [reflexivity|];
     split; [first [left; reflexivity | right; split; reflexivity]|];
     intros Hc score; split; intro Hle;
     [ first [ apply (G _ score eq_refl eq_refl Hle) | congruence ]
     | first [ apply (G _ score eq_refl eq_refl);
               cbn [t_allow]; apply Qle_trans with (7 # 10);
               [discriminate | exact Hle]
             | congruence ] ]).
Qed.

Lemma ingested_contexts_have_thresholds_witness :
  getDecisionHint (75 # 100) "bot_detection" = allow.
Proof.
  destruct (ingested_contexts_have_thresholds "bot_detection")
    as (t & _ & _ & H).
  - vm_compute. tauto.
  - apply H; discriminate.
Defined.

(** X25: [POST /trust/query] answers 400 when the body fails the schema
    and 200 otherwise, never 404: a well-formed query about an entity
    that is not in the store gets the neutral result. *)
Theorem trustQueryHandler_answers (st : Store) (now : string)
  (body : option Api.QueryBody) :
  (Api.trustQuerySchema body = None ->
   Api.trustQueryHandler st now body = Api.Query400)
  /\ (forall b : Api.QueryBody,
        Api.trustQuerySchema body = Some b ->
        body = Some b
        /\ In (Api.b_type b) ["wallet"; "token"; "dev"; "kol"]
        /\ Api.b_identifier b <> ""
        /\ Api.b_context b <> ""
        /\ exists r : TrustQueryResponse,
             Api.trustQueryHandler st now body = Api.Query200 r
             /\ entity_id r = Api.b_type b ++ ":" ++ Api.b_identifier b
             /\ context r = Api.b_context b
             /\ (findFirstEntity st (Api.b_type b) (Api.b_identifier b) = None ->
                 resp_score r = 0 /\ decision_hint r = review
                 /\ provenance r = [])).
Proof.
  unfold Api.trustQueryHandler. split.
  - now intros ->.
  - intros b Hb. rewrite Hb. unfold Api.trustQuerySchema in Hb.
    destruct body as [b'|]; [|discriminate].
    destruct (existsb (String.eqb (Api.b_type b')) Api.entityTypes
              && truthy_string (Api.b_identifier b')
              && truthy_string (Api.b_context b')) eqn:E; [|discriminate].
    injection Hb as <-.
    rewrite !andb_true_iff in E. destruct E as [[Ety Eid] Ectx].
    split; [reflexivity|]. split.
    { apply existsb_exists in Ety. destruct Ety as (k & Hk & Heq).
      apply String.eqb_eq in Heq. now subst k. }
    split; [intro H; rewrite H in Eid; discriminate|].
    split; [intro H; rewrite H in Ectx; discriminate|].
    unfold queryTrust.
    cbn [p_entityType p_identifier p_context].
    destruct (findFirstEntity st (Api.b_type b') (Api.b_identifier b'))
      as [e|].
    + destruct (entriesOf st e (Some (Api.b_context b'))) as [|x xs];
        eexists; (split; [reflexivity|]); repeat split; discriminate.
    + eexists. split; [reflexivity|]. repeat split.
Qed.

Lemma trustQueryHandler_answers_witness :
  exists r : TrustQueryResponse,
    Api.trustQueryHandler Examples.store_two Examples.now
      (Some (Api.mkBody "wallet" "W3" "copy_trading"))
    = Api.Query200 r
    /\ resp_score r = 0 /\ decision_hint r = review /\ provenance r = [].
Proof.
  destruct (trustQueryHandler_answers Examples.store_two Examples.now
              (Some (Api.mkBody "wallet" "W3" "copy_trading"))) as [_ H].
  destruct (H (Api.mkBody "wallet" "W3" "copy_trading") eq_refl)
    as (_ & _ & _ & _ & r & Hr & _ & _ & Hneutral).
  exists r. split; [exact Hr|]. apply Hneutral. reflexivity.
Defined.

End PeripheryFacts.

(* ------------------------------------------------------------------ *)
(** ** Properties of the aggregation in double precision *)

Module DoubleFacts.

Import PrimFloat.
Import Double.

(** The loop of [queryTrust], from any state of the accumulator: the three
    components evolve independently. *)
Lemma double_accumulate_fold (entries : list RegistryEntry) (a : Acc) :
  fold_left accumulate entries a
  = mkAcc (fold_left (fun t s => (t + s * one)%float) (map score entries)
                     (totalScore a))
          (fold_left (fun w _ => (w + one)%float) (map score entries)
                     (totalWeight a))
          (acc_provenance a ++ map provenanceOf entries).
Proof.
  revert a. induction entries as [|x xs IH]; intro a; cbn [fold_left map].
  - rewrite app_nil_r. now destruct a.
  - rewrite IH. cbn [accumulate totalScore totalWeight acc_provenance].
    now rewrite <- app_assoc.
Qed.

(** The answer of [queryTrust] for an entity with at least one entry in
    the context. *)
Lemma double_queryTrust_aggregates (st : Store) (now : string)
  (params : Trust.TrustQueryParams) (e : Trust.Entity) :
  findFirstEntity st (Trust.p_entityType params) (Trust.p_identifier params)
  = Some e ->
  entriesOf st e (Some (Trust.p_context params)) <> [] ->
  queryTrust st now params
  = Some (mkResponse
            (Trust.entityIdOf (Trust.p_entityType params)
                              (Trust.p_identifier params))
            (Trust.p_context params)
            (round4 (SpecDouble.weightedMean one
                       (map score (entriesOf st e
                                     (Some (Trust.p_context params))))))
            (getDecisionHint
               (SpecDouble.weightedMean one
                  (map score (entriesOf st e (Some (Trust.p_context params)))))
               (Trust.p_context params))
            (map provenanceOf (entriesOf st e (Some (Trust.p_context params))))
            now).
Proof.
  intros Hfind Hne. unfold queryTrust. rewrite Hfind.
  destruct (entriesOf st e (Some (Trust.p_context params))) as [|x xs];
    [congruence|].
  rewrite double_accumulate_fold. cbn [totalScore totalWeight acc_provenance app].
  reflexivity.
Qed.

Lemma double_accumulateGroup_fold (entries : list RegistryEntry)
  (a : float * list Trust.ProvenanceItem) :
  fold_left accumulateGroup entries a
  = (fold_left (fun t s => (t + s)%float) (map score entries) (fst a),
     (snd a ++ map provenanceOf entries)%list).
Proof.
  revert a. induction entries as [|x xs IH]; intro a; cbn [fold_left map].
  - rewrite app_nil_r. now destruct a.
  - rewrite IH. cbn [accumulateGroup fst snd]. now rewrite <- app_assoc.
Qed.

(** The body of the loop over the groups of [queryEntityTrust]. *)
Lemma double_aggregateGroup_aggregates (e : Trust.Entity) (now ctx : string)
  (entries : list RegistryEntry) :
  aggregateGroup e now (ctx, entries)
  = mkResponse (Trust.entityIdOf (Trust.entityType e) (Trust.address e)) ctx
      (round4 (SpecDouble.plainMean (map score entries)))
      (getDecisionHint (SpecDouble.plainMean (map score entries)) ctx)
      (map provenanceOf entries) now.
Proof.
  unfold aggregateGroup, SpecDouble.plainMean.
  rewrite double_accumulateGroup_fold, length_map. reflexivity.
Qed.

(** *** Grouping *)

Lemma double_group_snoc (k : string) (l : list RegistryEntry) (x : RegistryEntry) :
  filter (fun r => String.eqb (Trust.registry_context (registry r)) k)
         (l ++ [x])
  = (filter (fun r => String.eqb (Trust.registry_context (registry r)) k) l
     ++ if String.eqb (Trust.registry_context (registry x)) k
        then [x] else [])%list.
Proof.
  rewrite filter_app. cbn [filter].
  now destruct (String.eqb (Trust.registry_context (registry x)) k).
Qed.

Lemma double_pushInto_present (ks : list string) (l : list RegistryEntry)
  (x : RegistryEntry) :
  NoDup ks ->
  In (Trust.registry_context (registry x)) ks ->
  pushInto
    (map (fun k => (k, filter (fun r =>
                         String.eqb (Trust.registry_context (registry r)) k)
                         l)) ks)
    (Trust.registry_context (registry x)) x
  = map (fun k => (k, filter (fun r =>
                        String.eqb (Trust.registry_context (registry r)) k)
                        (l ++ [x]))) ks.
Proof.
  set (c := Trust.registry_context (registry x)).
  induction ks as [|k rest IH]; intros Hnd Hin; [contradiction|].
  apply NoDup_cons_iff in Hnd. destruct Hnd as [Hnotin Hrest].
  cbn [map pushInto]. rewrite double_group_snoc. fold c.
  destruct (String.eqb k c) eqn:E.
  - apply String.eqb_eq in E. subst k. rewrite String.eqb_refl.
    f_equal. apply map_ext_in. intros k Hk. rewrite double_group_snoc. fold c.
    destruct (String.eqb c k) eqn:E'; [|now rewrite app_nil_r].
    apply String.eqb_eq in E'. subst k. contradiction.
  - rewrite String.eqb_sym in E. rewrite E, app_nil_r. f_equal.
    apply IH; [exact Hrest|].
    destruct Hin as [-> | Hin]; [|exact Hin].
    rewrite String.eqb_refl in E. discriminate.
Qed.

Lemma double_pushInto_absent (ks : list string) (l : list RegistryEntry)
  (x : RegistryEntry) :
  ~ In (Trust.registry_context (registry x)) ks ->
  (forall r, In r l -> In (Trust.registry_context (registry r)) ks) ->
  pushInto
    (map (fun k => (k, filter (fun r =>
                         String.eqb (Trust.registry_context (registry r)) k)
                         l)) ks)
    (Trust.registry_context (registry x)) x
  = map (fun k => (k, filter (fun r =>
                        String.eqb (Trust.registry_context (registry r)) k)
                        (l ++ [x])))
        (ks ++ [Trust.registry_context (registry x)]).
Proof.
  set (c := Trust.registry_context (registry x)). intros Hnotin Hcover.
  assert (Hnone : filter (fun r =>
                     String.eqb (Trust.registry_context (registry r)) c) l
                  = []).
  { induction l as [|y l IHl]; [reflexivity|]. cbn [filter].
    destruct (String.eqb (Trust.registry_context (registry y)) c) eqn:E.
    - apply String.eqb_eq in E. exfalso. apply Hnotin. rewrite <- E.
      apply Hcover. now left.
    - apply IHl. intros r Hr. apply Hcover. now right. }
  rewrite map_app. cbn [map]. rewrite double_group_snoc, Hnone. fold c.
  rewrite String.eqb_refl. cbn [app].
  clear Hcover Hnone.
  induction ks as [|k rest IH]; [reflexivity|].
  cbn [map pushInto app]. rewrite double_group_snoc. fold c.
  assert (E : String.eqb k c = false).
  { apply String.eqb_neq. intro. subst. apply Hnotin. now left. }
  rewrite E. rewrite String.eqb_sym in E. rewrite E, app_nil_r. f_equal.
  apply IH. intro H. apply Hnotin. now right.
Qed.

(** The map built by the grouping loop, in closed form. *)
Lemma double_groupByContext_spec (entries : list RegistryEntry) :
  groupByContext entries
  = map (fun k => (k, filter (fun r =>
                        String.eqb (Trust.registry_context (registry r)) k)
                        entries))
        (Ingestion.arrayFromSet
           (map (fun r => Trust.registry_context (registry r)) entries)).
Proof.
  induction entries as [|x l IH] using rev_ind; [reflexivity|].
  unfold groupByContext in *. rewrite fold_left_app. cbn [fold_left].
  rewrite IH, map_app. cbn [map]. rewrite GroupFacts.arrayFromSet_snoc.
  unfold Ingestion.setAdd.
  destruct (existsb (String.eqb (Trust.registry_context (registry x)))
              (Ingestion.arrayFromSet
                 (map (fun r => Trust.registry_context (registry r)) l)))
    eqn:E.
  - apply double_pushInto_present; [apply GroupFacts.arrayFromSet_NoDup|].
    now apply GroupFacts.existsb_eqb_In.
  - apply double_pushInto_absent.
    + intro H. apply GroupFacts.existsb_eqb_In in H. congruence.
    + intros r Hr. apply GroupFacts.arrayFromSet_In.
      now apply (in_map (fun r => Trust.registry_context (registry r))).
Qed.

(** The groups are the non-empty classes of the entries by context. *)
Lemma groupByContext_In (entries group : list RegistryEntry) (ctx : string) :
  In (ctx, group) (groupByContext entries)
  <-> group = filter (fun r =>
                String.eqb (Trust.registry_context (registry r)) ctx) entries
      /\ group <> [].
Proof.
  rewrite double_groupByContext_spec, in_map_iff. split.
  - intros (k & Heq & Hin). injection Heq as -> <-. split; [reflexivity|].
    rewrite GroupFacts.arrayFromSet_In, in_map_iff in Hin.
    destruct Hin as (r & Hctx & Hr). intro Hnil.
    assert (H : In r (filter (fun r' =>
                  String.eqb (Trust.registry_context (registry r')) ctx)
                  entries)).
    { apply filter_In. split; [exact Hr|]. rewrite Hctx.
      apply String.eqb_refl. }
    rewrite Hnil in H. contradiction.
  - intros [-> Hne]. exists ctx. split; [reflexivity|].
    apply GroupFacts.arrayFromSet_In.
    destruct (filter (fun r =>
                String.eqb (Trust.registry_context (registry r)) ctx) entries)
      as [|r rs] eqn:E; [congruence|].
    assert (H : In r (filter (fun r' =>
                  String.eqb (Trust.registry_context (registry r')) ctx)
                  entries)) by (rewrite E; now left).
    apply filter_In in H. destruct H as [Hr Hctx].
    apply String.eqb_eq in Hctx. rewrite <- Hctx.
    now apply (in_map (fun r => Trust.registry_context (registry r))).
Qed.

(** The results of [queryEntityTrust], one by one. *)
Lemma double_queryEntityTrust_results (st : Store) (now : string)
  (params : Trust.TrustEntityParams) (r : TrustQueryResponse) :
  In r (queryEntityTrust st now params)
  <-> exists (e : Trust.Entity) (ctx : string),
        In e (findManyEntities st (Trust.ep_address params))
        /\ filter (fun x =>
                     String.eqb (Trust.registry_context (registry x)) ctx)
                  (entriesOf st e
                     (Trust.whereContext (Trust.ep_context params)))
           <> []
        /\ r = mkResponse
                 (Trust.entityIdOf (Trust.entityType e) (Trust.address e)) ctx
                 (round4 (SpecDouble.plainMean
                    (map score
                       (filter (fun x =>
                          String.eqb (Trust.registry_context (registry x)) ctx)
                          (entriesOf st e
                             (Trust.whereContext (Trust.ep_context params)))))))
                 (getDecisionHint
                    (SpecDouble.plainMean
                       (map score
                          (filter (fun x =>
                             String.eqb (Trust.registry_context (registry x))
                                        ctx)
                             (entriesOf st e
                                (Trust.whereContext
                                   (Trust.ep_context params))))))
                    ctx)
                 (map provenanceOf
                    (filter (fun x =>
                       String.eqb (Trust.registry_context (registry x)) ctx)
                       (entriesOf st e
                          (Trust.whereContext (Trust.ep_context params)))))
                 now.
Proof.
  unfold queryEntityTrust. rewrite in_flat_map. split.
  - intros (e & He & Hr). apply in_map_iff in Hr.
    destruct Hr as ([ctx group] & Hagg & Hin).
    apply groupByContext_In in Hin. destruct Hin as [Hgroup Hne].
    exists e, ctx. split; [exact He|]. rewrite <- Hgroup.
    split; [exact Hne|]. now rewrite <- Hagg, double_aggregateGroup_aggregates.
  - intros (e & ctx & He & Hne & Hr). exists e. split; [exact He|].
    apply in_map_iff.
    exists (ctx, filter (fun x =>
                   String.eqb (Trust.registry_context (registry x)) ctx)
                   (entriesOf st e
                      (Trust.whereContext (Trust.ep_context params)))).
    split.
    + now rewrite double_aggregateGroup_aggregates, Hr.
    + apply groupByContext_In. now split.
Qed.

(** *** The decision-hint table *)

(** The own entries of the threshold table. *)
Lemma thresholds_cases (context : string) :
  context = "copy_trading" \/ context = "token_analysis"
  \/ context = "kyc" \/ context = "rugger_check" \/ context = "default"
  \/ (ownProperty context thresholds = None
      /\ String.eqb context "rugger_check" = false).
Proof.
  unfold ownProperty, thresholds.
  destruct (String.eqb "copy_trading" context) eqn:E1;
    [apply String.eqb_eq in E1; now left|].
  destruct (String.eqb "token_analysis" context) eqn:E2;
    [apply String.eqb_eq in E2; now (right; left)|].
  destruct (String.eqb "kyc" context) eqn:E3;
    [apply String.eqb_eq in E3; now (right; right; left)|].
  destruct (String.eqb "rugger_check" context) eqn:E4;
    [apply String.eqb_eq in E4; now (right; right; right; left)|].
  destruct (String.eqb "default" context) eqn:E5;
    [apply String.eqb_eq in E5; now (right; right; right; right; left)|].
  do 5 right. split; [reflexivity|]. now rewrite String.eqb_sym.
Qed.

(** For a context that is not the name of a member of [Object.prototype],
    the lookup [thresholds[context] || thresholds.default] yields the
    table's thresholds. *)
Lemma selectThresholds_own (context : string) :
  JS.inheritedKey context = false ->
  selectThresholds context = Own (SpecDouble.thresholdsFor context).
Proof.
  intro Hk. unfold selectThresholds, thresholds_get, SpecDouble.thresholdsFor.
  destruct (ownProperty context thresholds) as [t|]; [reflexivity|].
  now rewrite Hk.
Qed.

(** On a context that names a member of [Object.prototype],
    [thresholds[context]] finds that member; its [allow], [limit] and
    [review] are [undefined], every comparison is false and the hint is
    [deny] whatever the score. No registry of the configuration has such
    a context. *)
Remark getDecisionHint_inherited_key (score : float) :
  getDecisionHint score "constructor" = Trust.deny
  /\ getDecisionHint score "toString" = Trust.deny.
Proof. split; reflexivity. Qed.

(** C2: for every score and every context that is not the name of a
    member of [Object.prototype] (the contexts of the registries that the
    ingestion writes are among them), [getDecisionHint] gives the hint of
    the table wherever the table speaks: in a standard context [allow]
    from the allow threshold, [allow_with_limit] from the limit threshold,
    [review] from the review threshold, else [deny]; in rugger_check
    [deny] from the review threshold 0.3, [review] for a score above 0 and
    [allow] for the score 0. A score equal to a threshold gets the tier of
    that threshold. *)
Theorem getDecisionHint_agrees_with_table (score : float) (context : string) :
  JS.inheritedKey context = false ->
  (forall h : Trust.DecisionHint,
      SpecDouble.decisionHintTable score context = Some h ->
      getDecisionHint score context = h)
  /\ (SpecDouble.decisionHintTable score context = None ->
      context = "rugger_check"
      /\ PrimFloat.leb 0.3 score = false
      /\ PrimFloat.ltb 0 score = false
      /\ PrimFloat.eqb score 0 = false)
  /\ (context <> "rugger_check" ->
      getDecisionHint (t_allow (SpecDouble.thresholdsFor context)) context
      = Trust.allow
      /\ getDecisionHint (t_limit (SpecDouble.thresholdsFor context)) context
         = Trust.allow_with_limit
      /\ getDecisionHint (t_review (SpecDouble.thresholdsFor context)) context
         = Trust.review)
  /\ (context = "rugger_check" ->
      t_review (SpecDouble.thresholdsFor context) = 0.3%float
      /\ getDecisionHint 0.3 context = Trust.deny
      /\ getDecisionHint 0 context = Trust.allow)
  /\ Forall (fun c => JS.inheritedKey c = false) Ingestion.getContexts.
Proof.
  intro Hk. split; [|split; [|split; [|split]]].
  - intros h. unfold getDecisionHint, SpecDouble.decisionHintTable.
    rewrite (selectThresholds_own context Hk).
    cbn [field geb_undef]. unfold geb, gtb.
    destruct (String.eqb context "rugger_check");
      repeat match goal with
             | |- context [PrimFloat.leb ?a ?b] => destruct (PrimFloat.leb a b)
             end;
      try (destruct (PrimFloat.ltb zero score));
      try (destruct (PrimFloat.eqb score zero)); congruence.
  - unfold SpecDouble.decisionHintTable.
    destruct (String.eqb context "rugger_check") eqn:E.
    + apply String.eqb_eq in E. subst context.
      change (t_review (SpecDouble.thresholdsFor "rugger_check"))
        with 0.3%float.
      destruct (PrimFloat.leb 0.3 score); [discriminate|].
      destruct (PrimFloat.ltb zero score) eqn:Hlt; [discriminate|].
      destruct (PrimFloat.eqb score zero) eqn:Heq; [discriminate|].
      intros _. repeat split; assumption.
    + repeat match goal with
             | |- context [PrimFloat.leb ?a ?b] => destruct (PrimFloat.leb a b)
             end; discriminate.
  - intro Hne.
    destruct (thresholds_cases context)
      as [-> | [-> | [-> | [-> | [-> | [Hnone Hrug]]]]]];
      try (repeat split; vm_compute; reflexivity); [congruence|].
    unfold getDecisionHint. rewrite (selectThresholds_own context Hk), Hrug.
    unfold SpecDouble.thresholdsFor. rewrite Hnone.
    repeat split; vm_compute; reflexivity.
  - intros ->. repeat split; vm_compute; reflexivity.
  - repeat constructor.
Qed.

Lemma getDecisionHint_agrees_with_table_witness :
  getDecisionHint 0.7 "copy_trading" = Trust.allow
  /\ getDecisionHint 0.69 "copy_trading" = Trust.allow_with_limit.
Proof.
  split.
  - destruct (getDecisionHint_agrees_with_table 0.7 "copy_trading")
      as (Htable & _); [reflexivity|].
    apply Htable. reflexivity.
  - destruct (getDecisionHint_agrees_with_table 0.69 "copy_trading")
      as (Htable & _); [reflexivity|].
    apply Htable. reflexivity.
Defined.

(** *** Score and hint *)

(** [Math.round] on some ties and near-ties. *)
Lemma Math_round_examples :
  Math_round 0.5 = 1%float
  /\ Math_round 2.5 = 3%float
  /\ Math_round (-2.5) = (-2)%float
  /\ Math_round (-312.5) = (-312)%float
  /\ Math_round 0.49999999999999994 = 0%float
  /\ Math_round 14.499999999999998 = 14%float.
Proof. repeat split; vm_compute; reflexivity. Qed.

(** Two runs of [queryTrust]: entries 0.0014 and 0.0015, whose scaled
    double mean is just below 14.5, and the single entry -0.03125. *)
Lemma queryTrust_examples :
  option_map resp_score
    (queryTrust SamplesDouble.store_two Examples.now Examples.query_W1)
  = Some 0.0014%float
  /\ option_map resp_score
       (queryTrust SamplesDouble.store_negative Examples.now Examples.query_W1)
     = Some (-0.0312)%float
  /\ (-0.0312)%float <> (-0.0313)%float.
Proof.
  split; [vm_compute; reflexivity|]. split; [vm_compute; reflexivity|].
  intro H. assert (E : PrimFloat.eqb (-0.0312) (-0.0313) = true)
    by (rewrite H; reflexivity).
  vm_compute in E. discriminate.
Qed.

Lemma round_half_up_bounds (q : Q) :
  inject_Z (Qfloor (q + (1 # 2))) - (1 # 2) <= q
  /\ q < inject_Z (Qfloor (q + (1 # 2))) + (1 # 2).
Proof.
  pose proof (Qfloor_le (q + (1 # 2))) as Hlo.
  pose proof (Qlt_floor (q + (1 # 2))) as Hhi.
  rewrite inject_Z_plus in Hhi. change (inject_Z 1) with 1%Q in Hhi.
  split; lra.
Qed.

(** C1, as the code has it: for an entity with k >= 1 entries in the
    requested context, the returned score is
    [Math.round(m * 10000) / 10000] in double arithmetic, where [m] is the
    mean the loop computes: the k scores, each times the weight 1, added in
    the order the store yields them, divided by the k weights added the
    same way. When the scaled mean [m * 10000] is finite and not integral,
    [Math.round] yields the integer z with z - 1/2 <= m * 10000 < z + 1/2:
    a tie goes towards plus infinity. *)
Theorem queryTrust_score_double_mean (st : Store) (now : string)
  (params : Trust.TrustQueryParams) (e : Trust.Entity) :
  findFirstEntity st (Trust.p_entityType params) (Trust.p_identifier params)
  = Some e ->
  entriesOf st e (Some (Trust.p_context params)) <> [] ->
  exists r : TrustQueryResponse,
    let m := SpecDouble.weightedMean one
               (map score (entriesOf st e (Some (Trust.p_context params)))) in
    queryTrust st now params = Some r
    /\ resp_score r = (Math_round (m * 10000) / 10000)%float
    /\ forall q : Q,
         toQ (m * 10000)%float = Some q ->
         isIntegral q = false ->
         exists z : Z,
           inject_Z z - (1 # 2) <= q
           /\ q < inject_Z z + (1 # 2)
           /\ resp_score r
              = ((if (z =? 0)%Z
                  then (if Qle_bool 0 q then zero else neg_zero)
                  else ofZ z) / 10000)%float.
Proof.
  intros Hfind Hne. eexists. cbn zeta.
  split; [exact (double_queryTrust_aggregates st now params e Hfind Hne)|].
  cbn [resp_score]. split; [reflexivity|].
  intros q Hq Hint. exists (Qfloor (q + (1 # 2))).
  destruct (round_half_up_bounds q) as [Hlo Hhi].
  split; [exact Hlo|]. split; [exact Hhi|].
  unfold round4, Math_round. now rewrite Hq, Hint.
Qed.

Lemma queryTrust_score_double_mean_witness :
  exists r : TrustQueryResponse,
    queryTrust SamplesDouble.store_two Examples.now Examples.query_W1 = Some r
    /\ resp_score r = 0.0014%float.
Proof.
  destruct (queryTrust_score_double_mean SamplesDouble.store_two Examples.now
              Examples.query_W1 Examples.W1) as (r & Hq & Hs & _).
  - reflexivity.
  - vm_compute. discriminate.
  - exists r. split; [exact Hq|]. rewrite Hs. vm_compute. reflexivity.
Defined.

(** C10: in [queryTrust] and in [queryEntityTrust] the reported score is
    the rounding of the mean of the contributing entries' scores, as the
    loop computes it in double arithmetic, while the hint is computed from
    that mean itself. So a single entry scoring 0.59996 in a context with
    the default thresholds is reported with score 0.6, whose own hint is
    [allow], together with the lower hint [allow_with_limit]. *)
Theorem hint_from_unrounded_mean :
  (forall (st : Store) (now : string) (params : Trust.TrustQueryParams)
          (e : Trust.Entity),
      findFirstEntity st (Trust.p_entityType params)
                         (Trust.p_identifier params) = Some e ->
      entriesOf st e (Some (Trust.p_context params)) <> [] ->
      exists r : TrustQueryResponse,
        let m := SpecDouble.weightedMean one
                   (map score
                      (entriesOf st e (Some (Trust.p_context params)))) in
        queryTrust st now params = Some r
        /\ resp_score r = round4 m
        /\ decision_hint r = getDecisionHint m (Trust.p_context params))
  /\ (forall (st : Store) (now : string) (params : Trust.TrustEntityParams)
             (r : TrustQueryResponse),
        In r (queryEntityTrust st now params) ->
        exists (e : Trust.Entity) (group : list RegistryEntry),
          In e (findManyEntities st (Trust.ep_address params))
          /\ group
             = filter (fun x =>
                         String.eqb (Trust.registry_context (registry x))
                                    (context r))
                      (entriesOf st e
                         (Trust.whereContext (Trust.ep_context params)))
          /\ group <> []
          /\ resp_score r = round4 (SpecDouble.plainMean (map score group))
          /\ decision_hint r
             = getDecisionHint (SpecDouble.plainMean (map score group))
                               (context r)
          /\ provenance r = map provenanceOf group)
  /\ (exists r : TrustQueryResponse,
        queryTrust SamplesDouble.store_boundary Examples.now
          Examples.query_W1_social = Some r
        /\ resp_score r = 0.6%float
        /\ decision_hint r = Trust.allow_with_limit
        /\ getDecisionHint (resp_score r) (context r) = Trust.allow
        /\ (Spec.tier (decision_hint r)
            < Spec.tier (getDecisionHint (resp_score r) (context r)))%nat)
  /\ (exists r : TrustQueryResponse,
        In r (queryEntityTrust SamplesDouble.store_boundary Examples.now
                (Trust.mkEntityParams "W1" None))
        /\ resp_score r = 0.6%float
        /\ decision_hint r = Trust.allow_with_limit
        /\ getDecisionHint (resp_score r) (context r) = Trust.allow
        /\ (Spec.tier (decision_hint r)
            < Spec.tier (getDecisionHint (resp_score r) (context r)))%nat).
Proof.
  split; [|split; [|split]].
  - intros st now params e Hfind Hne. eexists. cbn zeta.
    split; [exact (double_queryTrust_aggregates st now params e Hfind Hne)|].
    split; reflexivity.
  - intros st now params r Hin.
    apply double_queryEntityTrust_results in Hin.
    destruct Hin as (e & ctx & He & Hne & ->). cbn [context resp_score
      decision_hint provenance].
    exists e. eexists. split; [exact He|]. split; [reflexivity|].
    split; [exact Hne|]. repeat split.
  - eexists. split; [vm_compute; reflexivity|].
    cbn [resp_score decision_hint context].
    repeat split; vm_compute; reflexivity.
  - eexists. split; [left; vm_compute; reflexivity|].
    cbn [resp_score decision_hint context].
    repeat split; vm_compute; reflexivity.
Qed.

Lemma hint_from_unrounded_mean_witness :
  exists r : TrustQueryResponse,
    queryTrust SamplesDouble.store_two Examples.now Examples.query_W1 = Some r
    /\ resp_score r = 0.0014%float
    /\ decision_hint r = Trust.deny.
Proof.
  destruct hint_from_unrounded_mean as (H & _).
  destruct (H SamplesDouble.store_two Examples.now Examples.query_W1
              Examples.W1) as (r & Hq & Hs & Hh).
  - reflexivity.
  - vm_compute. discriminate.
  - exists r. split; [exact Hq|]. rewrite Hs, Hh.
    split; vm_compute; reflexivity.
Defined.

End DoubleFacts.

(* ------------------------------------------------------------------ *)
(** ** Properties of the leaderboard route, the database call a parameter *)

Module LeaderboardFacts.

Import PrimFloat.
Import Double.

Lemma firstn_StronglySorted {A : Type} (R : A -> A -> Prop) (n : nat)
  (l : list A) :
  StronglySorted R l -> StronglySorted R (firstn n l).
Proof.
  revert n. induction l as [|x rest IH]; intros n Hs.
  - now rewrite firstn_nil.
  - destruct n as [|n]; cbn [firstn]; [constructor|].
    inversion Hs as [|x' rest' Hrest Hall]; subst.
    constructor; [now apply IH|].
    rewrite Forall_forall in Hall |- *. intros z Hz. apply Hall.
    now apply (TopFacts.firstn_In n).
Qed.

(** The doubles of the integers 1 to 100 pass the limit schema and are
    those integers. *)
Lemma limit_in_range (n : Z) :
  (1 <= n <= 100)%Z ->
  limitSchema (Some (ofZ n)) = Some (ofZ n)
  /\ exists q : Q, toQ (ofZ n) = Some q /\ q == inject_Z n.
Proof.
  intro Hn.
  set (ok := fun k : Z =>
         match limitSchema (Some (ofZ k)), toQ (ofZ k) with
         | Some _, Some q => Qeq_bool q (inject_Z k)
         | _, _ => false
         end).
  assert (Hall : forallb ok (map Z.of_nat (seq 1 100)) = true)
    by (vm_compute; reflexivity).
  rewrite forallb_forall in Hall.
  assert (Hin : In n (map Z.of_nat (seq 1 100))).
  { apply in_map_iff. exists (Z.to_nat n). split; [lia|].
    apply in_seq. lia. }
  specialize (Hall n Hin). unfold ok in Hall.
  destruct (limitSchema (Some (ofZ n))) as [x|] eqn:Hx; [|discriminate].
  destruct (toQ (ofZ n)) as [q|]; [|discriminate].
  split.
  - unfold limitSchema in Hx.
    destruct (isNaN (ofZ n)); [discriminate|].
    destruct (PrimFloat.ltb (ofZ n) 1); [discriminate|].
    destruct (PrimFloat.ltb 100 (ofZ n)); [discriminate | now symmetry].
  - exists q. split; [reflexivity|]. now apply Qeq_bool_iff.
Qed.

Lemma schema_accepts (context : string) (n : Z) (registry_slugs : option string) :
  (1 <= n <= 100)%Z ->
  trustTopQuerySchema
    (mkTopQuery (Routes.Text context) (Some (ofZ n))
       (match registry_slugs with
        | Some s => Routes.Text s
        | None => Routes.Missing
        end))
  = Some (context, ofZ n, registry_slugs).
Proof.
  intro Hn. unfold trustTopQuerySchema.
  cbn [q_context q_limit q_registry_slugs].
  rewrite (proj1 (limit_in_range n Hn)). now destruct registry_slugs.
Qed.

(** C4, as the code has it: for a limit N in 1..100 the route passes the
    context, the slugs (when their list is not empty), the single sort key
    [score desc] and N to [findMany], and returns its rows in the order
    received. With a [findMany] that keeps its contract, the rows are the
    first N of the entries whose registry has the context (and one of the
    slugs), in descending order of raw score; the order of entries with
    equal scores is the database's: no second key is passed. A limit of 0
    or above 100 is answered with 400 without calling [findMany]. *)
Theorem top_query_first_rows_by_score
  (findMany : FindManyArgs -> option (list RegistryEntry)) (st : Store)
  (context : string) (n : Z) (registry_slugs : option string)
  (answer : list RegistryEntry) :
  (let slugs := option_map (fun s => filter JS.truthy_string
                                            (Api.split_comma s))
                           registry_slugs in
   (1 <= n <= 100)%Z ->
   findMany (topArgs (mkTopParams context (ofZ n) slugs)) = Some answer ->
   SpecDouble.conforms st (topArgs (mkTopParams context (ofZ n) slugs))
                       answer ->
   trustTopHandler findMany
     (mkTopQuery (Routes.Text context) (Some (ofZ n))
        (match registry_slugs with
         | Some s => Routes.Text s
         | None => Routes.Missing
         end))
   = Top200 context (ofZ n) (List.length answer)
            (map (toTopEntity context) answer)
   /\ (Z.of_nat (List.length answer) <= n)%Z
   /\ StronglySorted (SpecDouble.mayPrecede [ScoreDesc]) answer
   /\ exists ordered : list RegistryEntry,
        answer = firstn (Z.to_nat n) ordered
        /\ StronglySorted (SpecDouble.mayPrecede [ScoreDesc]) ordered
        /\ forall r : RegistryEntry,
             In r ordered
             <-> In r (registryEntries st)
                 /\ Trust.registry_context (registry r) = context
                 /\ match slugs with
                    | Some (s :: more) =>
                        In (Trust.slug (registry r)) (s :: more)
                    | _ => True
                    end)
  /\ (forall (x : float) (c s : Routes.Param),
        x = 0%float \/ PrimFloat.ltb 100 x = true ->
        trustTopHandler findMany (mkTopQuery c (Some x) s) = Top400).
Proof.
  split.
  - intros slugs Hn Hfind Hconf.
    destruct Hconf as (selected & ordered & q & k & Hsel & Hperm & Hsorted
                       & Hq & Hqk & Hk & Hans).
    cbn [take topArgs tp_limit orderBy] in Hq, Hsorted.
    destruct (limit_in_range n Hn) as [_ (q' & Hq' & Hqn)].
    rewrite Hq' in Hq. injection Hq as <-.
    assert (Hkn : k = n).
    { apply inject_Z_injective. now rewrite <- Hqk, <- Hqn. }
    subst k.
    split; [|split; [|split]].
    + unfold trustTopHandler. rewrite (schema_accepts context n _ Hn).
      fold slugs. unfold queryTopEntities. rewrite Hfind.
      cbn [option_map tp_context]. now rewrite length_map.
    + rewrite Hans. pose proof (firstn_le_length (Z.to_nat n) ordered). lia.
    + rewrite Hans. now apply firstn_StronglySorted.
    + exists ordered. split; [exact Hans|]. split; [exact Hsorted|].
      intro r. split.
      * intro Hr. apply (Permutation_in _ Hperm) in Hr.
        apply filter_In in Hr. destruct Hr as [Hst Hr].
        apply Hsel in Hr. destruct Hr as [Hctx Hslug].
        cbn [topArgs where_context where_slug_in tp_context
             tp_registrySlugs] in Hctx, Hslug.
        split; [exact Hst|]. split; [exact Hctx|].
        destruct slugs as [[|s more]|]; trivial.
      * intros (Hst & Hctx & Hslug).
        apply (Permutation_in _ (Permutation_sym Hperm)).
        apply filter_In. split; [exact Hst|]. apply Hsel.
        split; [exact Hctx|].
        cbn [topArgs where_slug_in tp_registrySlugs].
        destruct slugs as [[|s more]|]; trivial.
  - intros x c s Hx. unfold trustTopHandler, trustTopQuerySchema.
    cbn [q_context q_limit q_registry_slugs].
    assert (Hnone : limitSchema (Some x) = None).
    { destruct Hx as [-> | Hx]; [reflexivity|]. unfold limitSchema.
      destruct (isNaN x); [reflexivity|].
      destruct (PrimFloat.ltb x 1); [reflexivity|]. now rewrite Hx. }
    rewrite Hnone. now destruct c.
Qed.

(** The three rows of [store_tie] in the context copy_trading, in any
    order that puts the score 0.75 first, keep the contract of the call
    that the route makes with limit 10. *)
Lemma store_tie_conforms (second third : RegistryEntry) :
  Permutation [second; third]
              [SamplesDouble.entry_b; SamplesDouble.entry_a] ->
  SpecDouble.conforms SamplesDouble.store_tie
    (topArgs (mkTopParams "copy_trading" (ofZ 10) None))
    [SamplesDouble.entry_c; second; third].
Proof.
  intro Hperm.
  assert (Hscore : Forall (fun r => score r = 0.5%float) [second; third]).
  { apply (Permutation_Forall (Permutation_sym Hperm)).
    repeat constructor. }
  destruct (limit_in_range 10) as [_ (q & Hq & Hqn)]; [lia|].
  exists (fun r => String.eqb (Trust.registry_context (registry r))
                              "copy_trading"),
         [SamplesDouble.entry_c; second; third], q, 10%Z.
  split; [|split; [|split; [|split; [|split; [|split]]]]].
  - intro r. unfold SpecDouble.matches, topArgs.
    cbn [where_context where_slug_in tp_context tp_registrySlugs].
    rewrite String.eqb_eq. tauto.
  - change (filter _ (registryEntries SamplesDouble.store_tie))
      with [SamplesDouble.entry_b; SamplesDouble.entry_a;
            SamplesDouble.entry_c].
    apply Permutation_trans
      with (l' := [SamplesDouble.entry_c; SamplesDouble.entry_b;
                   SamplesDouble.entry_a]).
    + now apply perm_skip.
    + apply (Permutation_cons_append
               [SamplesDouble.entry_b; SamplesDouble.entry_a]
               SamplesDouble.entry_c).
  - cbn [orderBy topArgs].
    inversion Hscore as [|x l Hsecond Hrest]; subst.
    inversion Hrest as [|x l Hthird _]; subst.
    apply SSorted_cons;
      [apply SSorted_cons;
         [apply SSorted_cons; [apply SSorted_nil | apply Forall_nil]
         |apply Forall_cons; [|apply Forall_nil]]
      |apply Forall_cons; [|apply Forall_cons; [|apply Forall_nil]]];
      cbn [SpecDouble.mayPrecede SpecDouble.keyBefore SpecDouble.keyEqual].
    + right. rewrite Hsecond, Hthird. now split.
    + left. now rewrite Hsecond.
    + left. now rewrite Hthird.
  - exact Hq.
  - exact Hqn.
  - lia.
  - reflexivity.
Qed.

Lemma top_query_first_rows_by_score_witness :
  trustTopHandler
    (SamplesDouble.answering
       [SamplesDouble.entry_c; SamplesDouble.entry_a; SamplesDouble.entry_b])
    (mkTopQuery (Routes.Text "copy_trading") (Some (ofZ 10)) Routes.Missing)
  = Top200 "copy_trading" (ofZ 10) 3
      (map (toTopEntity "copy_trading")
           [SamplesDouble.entry_c; SamplesDouble.entry_a;
            SamplesDouble.entry_b])
  /\ StronglySorted (SpecDouble.mayPrecede [ScoreDesc])
       [SamplesDouble.entry_c; SamplesDouble.entry_a; SamplesDouble.entry_b].
Proof.
  destruct (top_query_first_rows_by_score
              (SamplesDouble.answering
                 [SamplesDouble.entry_c; SamplesDouble.entry_a;
                  SamplesDouble.entry_b])
              SamplesDouble.store_tie "copy_trading" 10 None
              [SamplesDouble.entry_c; SamplesDouble.entry_a;
               SamplesDouble.entry_b]) as [H _].
  destruct H as (Hrun & _ & Hsorted & _).
  - lia.
  - reflexivity.
  - apply store_tie_conforms. apply perm_swap.
  - split; [exact Hrun | exact Hsorted].
Defined.

(** C4 as stated, at [store_tie]: entries [entry_a] and [entry_b] have the
    same score 0.5. The call that the route makes allows both orders of the
    two; with a database that yields [entry_b] first, the route answers
    with [entry_b] before [entry_a], which is not the order by score
    descending, then identifier ascending. So the order of ties by
    identifier does not hold for every database that keeps the contract of
    the call. *)
Lemma top_query_ties_left_to_database :
  let args := topArgs (mkTopParams "copy_trading" (ofZ 10) None) in
  let by_id := [SamplesDouble.entry_c; SamplesDouble.entry_a;
                SamplesDouble.entry_b] in
  let not_by_id := [SamplesDouble.entry_c; SamplesDouble.entry_b;
                    SamplesDouble.entry_a] in
  orderBy args = [ScoreDesc]
  /\ SpecDouble.conforms SamplesDouble.store_tie args by_id
  /\ SpecDouble.conforms SamplesDouble.store_tie args not_by_id
  /\ trustTopHandler (SamplesDouble.answering not_by_id)
       (mkTopQuery (Routes.Text "copy_trading") (Some (ofZ 10))
                   Routes.Missing)
     = Top200 "copy_trading" (ofZ 10) 3
              (map (toTopEntity "copy_trading") not_by_id)
  /\ map top_entity_id (map (toTopEntity "copy_trading") not_by_id)
     = ["wallet:W1"; "wallet:W1"; "wallet:W2"]
  /\ PrimFloat.eqb (score SamplesDouble.entry_b)
                   (score SamplesDouble.entry_a) = true
  /\ String.ltb (id SamplesDouble.entry_a) (id SamplesDouble.entry_b) = true
  /\ ~ StronglySorted (SpecDouble.mayPrecede [ScoreDesc; IdAsc]) not_by_id
  /\ ~ (forall (findMany : FindManyArgs -> option (list RegistryEntry))
               (st : Store) (context : string) (n : Z)
               (answer : list RegistryEntry),
          (1 <= n <= 100)%Z ->
          findMany (topArgs (mkTopParams context (ofZ n) None))
          = Some answer ->
          SpecDouble.conforms st (topArgs (mkTopParams context (ofZ n) None))
                              answer ->
          StronglySorted (SpecDouble.mayPrecede [ScoreDesc; IdAsc]) answer).
Proof.
  cbn zeta.
  assert (Hnot : ~ StronglySorted (SpecDouble.mayPrecede [ScoreDesc; IdAsc])
                     [SamplesDouble.entry_c; SamplesDouble.entry_b;
                      SamplesDouble.entry_a]).
  { intro Hs. inversion Hs as [|x l Hrest _]; subst.
    inversion Hrest as [|x l _ Hall]; subst.
    inversion Hall as [|x l Hba _]; subst.
    cbn [SpecDouble.mayPrecede SpecDouble.keyBefore SpecDouble.keyEqual]
      in Hba.
    destruct Hba as [Hlt | [_ [Hlt | [Heq _]]]];
      vm_compute in Hlt || vm_compute in Heq; discriminate. }
  assert (Hconf : SpecDouble.conforms SamplesDouble.store_tie
                    (topArgs (mkTopParams "copy_trading" (ofZ 10) None))
                    [SamplesDouble.entry_c; SamplesDouble.entry_b;
                     SamplesDouble.entry_a])
    by (apply store_tie_conforms; apply Permutation_refl).
  split; [reflexivity|].
  split; [apply store_tie_conforms; apply perm_swap|].
  split; [exact Hconf|].
  split; [vm_compute; reflexivity|].
  split; [vm_compute; reflexivity|].
  split; [vm_compute; reflexivity|].
  split; [vm_compute; reflexivity|].
  split; [exact Hnot|].
  intro Hall. apply Hnot.
  apply (Hall (SamplesDouble.answering
                 [SamplesDouble.entry_c; SamplesDouble.entry_b;
                  SamplesDouble.entry_a])
              SamplesDouble.store_tie "copy_trading" 10%Z).
  - lia.
  - reflexivity.
  - exact Hconf.
Qed.

(** X12: [GET /trust/top] answers 400 exactly when [context] is not a
    string, or [registry_slugs] is given and is not a string, or [limit]
    is given and its number is [NaN], below 1 or above 100. A request
    without [limit] is answered as one with limit 50. *)
Theorem trustTopHandler_400_cases
  (findMany : FindManyArgs -> option (list RegistryEntry)) (q : TopQuery) :
  (trustTopHandler findMany q = Top400
   <-> (forall context : string, q_context q <> Routes.Text context)
       \/ q_registry_slugs q = Routes.NotText
       \/ exists x : float,
            q_limit q = Some x
            /\ (isNaN x = true \/ PrimFloat.ltb x 1 = true
                \/ PrimFloat.ltb 100 x = true))
  /\ (q_limit q = None ->
      trustTopHandler findMany q
      = trustTopHandler findMany
          (mkTopQuery (q_context q) (Some 50%float) (q_registry_slugs q))).
Proof.
  split.
  - unfold trustTopHandler, trustTopQuerySchema.
    destruct (q_context q) as [|context|] eqn:Hc.
    + split; [|reflexivity]. intros _. left. discriminate.
    + destruct (limitSchema (q_limit q)) as [limit|] eqn:Hl.
      * assert (Hin : ~ exists x : float,
                   q_limit q = Some x
                   /\ (isNaN x = true \/ PrimFloat.ltb x 1 = true
                       \/ PrimFloat.ltb 100 x = true)).
        { intros (x & Hx & Hbad). rewrite Hx in Hl. unfold limitSchema in Hl.
          destruct (isNaN x); [discriminate|].
          destruct (PrimFloat.ltb x 1); [discriminate|].
          destruct (PrimFloat.ltb 100 x); [discriminate|].
          destruct Hbad as [H | [H | H]]; discriminate. }
        destruct (q_registry_slugs q) as [|slugs|] eqn:Hs.
        -- split.
           ++ destruct (queryTopEntities findMany _); discriminate.
           ++ intros [H | [H | H]];
                [now elim (H context) | discriminate | contradiction].
        -- split.
           ++ destruct (queryTopEntities findMany _); discriminate.
           ++ intros [H | [H | H]];
                [now elim (H context) | discriminate | contradiction].
        -- split; [|reflexivity]. intros _. right. now left.
      * split; [|reflexivity]. intros _. right. right.
        destruct (q_limit q) as [x|]; [|discriminate].
        exists x. split; [reflexivity|]. unfold limitSchema in Hl.
        destruct (isNaN x); [now left|].
        destruct (PrimFloat.ltb x 1); [right; now left|].
        destruct (PrimFloat.ltb 100 x); [right; now right | discriminate].
    + split; [|reflexivity]. intros _. left. discriminate.
  - intro Hnone. unfold trustTopHandler, trustTopQuerySchema.
    cbn [q_context q_limit q_registry_slugs]. rewrite Hnone. reflexivity.
Qed.

Lemma trustTopHandler_400_cases_witness :
  trustTopHandler (SamplesDouble.answering [SamplesDouble.entry_c])
    (mkTopQuery (Routes.Text "copy_trading") None Routes.Missing)
  = Top200 "copy_trading" 50%float 1
      [toTopEntity "copy_trading" SamplesDouble.entry_c].
Proof.
  destruct (trustTopHandler_400_cases
              (SamplesDouble.answering [SamplesDouble.entry_c])
              (mkTopQuery (Routes.Text "copy_trading") None Routes.Missing))
    as [_ H].
  rewrite H; reflexivity.
Defined.

End LeaderboardFacts.
